(** * GPIO Bridge: keyboard to sysfs button pulses

    A shallow embedding of [gpio_bridge.py].  The program is one class,
    [GPIOBridge], holding three literal dictionaries and a handful of methods
    that write text to sysfs files, read the terminal and log.

    - Python dictionaries are association lists in insertion order, which is
      the order [dict.items()] iterates in.
    - Methods are computations in a state-and-exception monad over a [world]
      holding the terminal, the pending input, the outcome of the coming file
      writes, and everything the program emitted (file writes and sleeps,
      log records, printed lines, started threads).
    - [try/except Exception], [try/finally] and [except KeyboardInterrupt]
      are combinators of that monad. *)

From Stdlib Require Import List String Ascii ZArith Bool Lia.
From Stdlib Require Import Decimal DecimalString.
Import ListNotations.
Open Scope string_scope.
Open Scope Z_scope.

(** ** Python strings *)

Definition esc : ascii := ascii_of_nat 27.   (* '\x1b' *)
Definition cr : ascii := ascii_of_nat 13.    (* '\r' *)

Definition chr (c : ascii) : string := String c EmptyString.

(** [str.upper] and [str.lower] on the ASCII range. *)
Definition upper_ascii (c : ascii) : ascii :=
  let n := nat_of_ascii c in
  if andb (Nat.leb 97 n) (Nat.leb n 122) then ascii_of_nat (n - 32) else c.

Definition lower_ascii (c : ascii) : ascii :=
  let n := nat_of_ascii c in
  if andb (Nat.leb 65 n) (Nat.leb n 90) then ascii_of_nat (n + 32) else c.

Fixpoint map_string (f : ascii -> ascii) (s : string) : string :=
  match s with
  | EmptyString => EmptyString
  | String c s' => String (f c) (map_string f s')
  end.

Definition upper : string -> string := map_string upper_ascii.
Definition lower : string -> string := map_string lower_ascii.

(** [str(n)] for an integer. *)
Definition str (n : Z) : string := NilZero.string_of_int (Z.to_int n).

(** [s * n] *)
Fixpoint repeat_string (s : string) (n : nat) : string :=
  match n with
  | O => EmptyString
  | S n' => s ++ repeat_string s n'
  end.

(** [f"{s:<8}"]: pad on the right with spaces up to the width. *)
Definition ljust (s : string) (width : nat) : string :=
  s ++ repeat_string " " (width - String.length s).

(** ** Python dictionaries, in insertion order *)

Section Dict.
Context {K V : Type} (eqb : K -> K -> bool).

(** [d[k]], [None] standing for [KeyError]. *)
Fixpoint dict_get (d : list (K * V)) (k : K) : option V :=
  match d with
  | [] => None
  | (k', v) :: d' => if eqb k k' then Some v else dict_get d' k
  end.

(** [k in d] *)
Definition dict_mem (d : list (K * V)) (k : K) : bool :=
  match dict_get d k with Some _ => true | None => false end.

Definition keys (d : list (K * V)) : list K := map fst d.
Definition values (d : list (K * V)) : list V := map snd d.
End Dict.

(** ** The three tables of [GPIOBridge.__init__] *)

Definition board_to_bcm : list (Z * Z) :=
  [ (31, 6);    (* UP *)
    (35, 19);   (* DOWN *)
    (29, 5);    (* LEFT *)
    (37, 26);   (* RIGHT *)
    (33, 13);   (* PRESS *)
    (40, 21);   (* KEY1 *)
    (38, 20);   (* KEY2 *)
    (36, 16) ]. (* KEY3 *)

Definition gpio_pins : list (string * Z) :=
  [ ("up", 31);
    ("down", 35);
    ("left", 29);
    ("right", 37);
    ("press", 33);
    ("key1", 40);
    ("key2", 38);
    ("key3", 36) ].

Definition arrow (c : ascii) : string := String esc (String "[" (chr c)).

Definition key_mapping : list (string * string) :=
  [ (arrow "A", "up");       (* Up arrow *)
    (arrow "B", "down");     (* Down arrow *)
    (arrow "D", "left");     (* Left arrow *)
    (arrow "C", "right");    (* Right arrow *)
    (" ", "press");          (* Space bar *)
    (chr cr, "press");       (* Enter key *)
    ("1", "key1");
    ("2", "key2");
    ("3", "key3");
    ("w", "up");             (* WASD alternative *)
    ("s", "down");
    ("a", "left");
    ("d", "right");
    ("q", "quit") ].         (* Quit key *)

Definition button_press_duration : Z := 100.  (* 0.1 s, in milliseconds *)

Definition bcm_of (board_pin : Z) : option Z := dict_get Z.eqb board_to_bcm board_pin.
Definition pin_of (action : string) : option Z := dict_get String.eqb gpio_pins action.
Definition action_of (token : string) : option string :=
  dict_get String.eqb key_mapping token.

(** The eight logical buttons of the data model. *)
Definition logical_buttons : list string :=
  ["up"; "down"; "left"; "right"; "press"; "key1"; "key2"; "key3"].

(** ** The world the program runs in *)

(** What the terminal delivers next while the main thread waits for a key.
    [Quiet] is one poll window (0.1 s) during which nothing arrives; [Key c]
    is a byte ready to be read; [Intr] is a SIGINT, raised as
    [KeyboardInterrupt] in the poll or the read that is waiting; [IOErr]
    makes that call raise [OSError].  The end of the list is the terminal
    going away: a read that is waiting gets the end of input, and from then
    on the terminal attributes cannot be read any more.

    Signals are delivered in the key wait only: a SIGINT that arrives while
    the main thread is in setup, in a sleep or in shutdown is outside this
    model. *)
Inductive tty_event : Type :=
| Quiet
| Key (c : ascii)
| Intr
| IOErr (msg : string).

(** What the program did to the outside, in order: text written to a file
    (with whether the write went through) and sleeps, in milliseconds. *)
Inductive io_event : Type :=
| FileWrite (path content : string) (ok : bool)
| Sleep (ms : Z).

Inductive level : Type := INFO | WARNING | ERROR.

Inductive exn : Type :=
| KeyError (key : string)
| OSError (msg : string)
| TermiosError (msg : string)
| UnicodeDecodeError (msg : string)
| KeyboardInterrupt
| SystemExit (code : Z).

(** [isinstance(e, Exception)]: [KeyboardInterrupt] and [SystemExit] derive
    from [BaseException] only. *)
Definition is_Exception (e : exn) : bool :=
  match e with
  | KeyError _ | OSError _ | TermiosError _ | UnicodeDecodeError _ => true
  | KeyboardInterrupt | SystemExit _ => false
  end.

(** [str(e)], as the log messages interpolate it. *)
Definition exn_str (e : exn) : string :=
  match e with
  | KeyError k => k
  | OSError m => m
  | TermiosError m => m
  | UnicodeDecodeError m => m
  | KeyboardInterrupt => ""
  | SystemExit c => str c
  end.

Inductive fileobj : Type := Stdin.

(** [sys.stdin] is a text stream: [read(1)] gives one character, decoded
    from the bytes of the terminal as strict UTF-8.  For the first byte of a
    character: how many more bytes belong to it and the range the next one
    must be in; [None] for a byte no character starts with. *)
Definition utf8_lead (c : ascii) : option (nat * nat * nat) :=
  let n := nat_of_ascii c in
  if Nat.ltb n 128 then Some (0, 0, 0)%nat
  else if andb (Nat.leb 194 n) (Nat.leb n 223) then Some (1, 128, 191)%nat
  else if Nat.eqb n 224 then Some (2, 160, 191)%nat
  else if andb (Nat.leb 225 n) (Nat.leb n 236) then Some (2, 128, 191)%nat
  else if Nat.eqb n 237 then Some (2, 128, 159)%nat
  else if andb (Nat.leb 238 n) (Nat.leb n 239) then Some (2, 128, 191)%nat
  else if Nat.eqb n 240 then Some (3, 144, 191)%nat
  else if andb (Nat.leb 241 n) (Nat.leb n 243) then Some (3, 128, 191)%nat
  else if Nat.eqb n 244 then Some (3, 128, 143)%nat
  else None.

(** Input in which every byte is of the ASCII range, so that one byte is
    one character however the bytes are grouped on arrival. *)
Definition ascii_input (evs : list tty_event) : Prop :=
  Forall (fun ev => match ev with
                    | Key c => (nat_of_ascii c < 128)%nat
                    | _ => True
                    end) evs.

(** The truth value of a 3-tuple in a condition: a tuple is false only when
    it has no components, whatever the components are. *)
Definition truthy3 {A B C : Type} (t : A * B * C) : bool := true.

Inductive outcome (A : Type) : Type :=
| Ok (a : A)
| Raise (e : exn).
Arguments Ok {A} a.
Arguments Raise {A} e.

Inductive loop_ctl : Type := Continue | Break.

Section Bridge.

(** The terminal attributes ([termios.tcgetattr]'s result) and
    [tty.setraw]'s effect on them belong to the Python library. *)
Variable termios : Type.
Variable setraw : termios -> termios.

Record world : Type := mkWorld {
  tty : termios;                   (* current terminal attributes *)
  stdin : list tty_event;          (* what the terminal will deliver *)
  elapsed : nat;                   (* poll windows waited through *)
  faults : list (option string);   (* coming file writes: [Some e] fails with text [e] *)
  dirs : list string;              (* sysfs pin directories that exist *)
  trace : list io_event;           (* file writes and sleeps so far *)
  log : list (level * string);     (* logger records so far *)
  stdout : list string;            (* printed lines so far *)
  threads : list (string * Z);     (* started pulse threads: the arguments *)
  is_running : bool                (* [self.is_running] *)
}.

Definition set_tty (t : termios) (w : world) : world :=
  mkWorld t (stdin w) (elapsed w) (faults w) (dirs w) (trace w) (log w)
          (stdout w) (threads w) (is_running w).
Definition set_stdin (evs : list tty_event) (n : nat) (w : world) : world :=
  mkWorld (tty w) evs n (faults w) (dirs w) (trace w) (log w)
          (stdout w) (threads w) (is_running w).
Definition set_fs (fs : list (option string)) (ds : list string)
           (tr : list io_event) (w : world) : world :=
  mkWorld (tty w) (stdin w) (elapsed w) fs ds tr (log w)
          (stdout w) (threads w) (is_running w).
Definition set_log (l : list (level * string)) (w : world) : world :=
  mkWorld (tty w) (stdin w) (elapsed w) (faults w) (dirs w) (trace w) l
          (stdout w) (threads w) (is_running w).
Definition set_stdout (l : list string) (w : world) : world :=
  mkWorld (tty w) (stdin w) (elapsed w) (faults w) (dirs w) (trace w) (log w)
          l (threads w) (is_running w).
Definition set_threads (l : list (string * Z)) (w : world) : world :=
  mkWorld (tty w) (stdin w) (elapsed w) (faults w) (dirs w) (trace w) (log w)
          (stdout w) l (is_running w).
Definition set_is_running (b : bool) (w : world) : world :=
  mkWorld (tty w) (stdin w) (elapsed w) (faults w) (dirs w) (trace w) (log w)
          (stdout w) (threads w) b.

(** *** The monad: state, exceptions, and [None] for a loop that has not
    finished within its fuel *)

Definition M (A : Type) : Type := world -> option (outcome A * world).

Definition ret {A} (a : A) : M A := fun w => Some (Ok a, w).
Definition raise {A} (e : exn) : M A := fun w => Some (Raise e, w).
Definition diverge {A} : M A := fun _ => None.

Definition bind {A B} (m : M A) (k : A -> M B) : M B :=
  fun w =>
    match m w with
    | None => None
    | Some (Ok a, w') => k a w'
    | Some (Raise e, w') => Some (Raise e, w')
    end.

Notation "x <- m ;; k" := (bind m (fun x => k))
  (at level 61, m at next level, right associativity).
Notation "m ;;; k" := (bind m (fun _ => k))
  (at level 61, right associativity).

(** [try: m  except Exception as e: h e] *)
Definition try_except {A} (m : M A) (h : exn -> M A) : M A :=
  fun w =>
    match m w with
    | Some (Raise e, w') => if is_Exception e then h e w' else Some (Raise e, w')
    | r => r
    end.

(** [try: m  except KeyboardInterrupt: h] *)
Definition try_except_interrupt {A} (m : M A) (h : M A) : M A :=
  fun w =>
    match m w with
    | Some (Raise KeyboardInterrupt, w') => h w'
    | r => r
    end.

(** [try: m  finally: f] *)
Definition try_finally {A} (m : M A) (f : M unit) : M A :=
  fun w =>
    match m w with
    | None => None
    | Some (r, w') =>
        match f w' with
        | None => None
        | Some (Ok _, w'') => Some (r, w'')
        | Some (Raise e, w'') => Some (Raise e, w'')
        end
    end.

(** [for x in l: body x] *)
Fixpoint for_each {A} (l : list A) (body : A -> M unit) : M unit :=
  match l with
  | [] => ret tt
  | x :: l' => body x ;;; for_each l' body
  end.

(** [d[k]] raising [KeyError] *)
Definition subscript {V} (found : option V) (shown : string) : M V :=
  match found with
  | Some v => ret v
  | None => raise (KeyError shown)
  end.

(** *** Library calls *)

Definition logger (lv : level) (msg : string) : M unit :=
  fun w => Some (Ok tt, set_log (log w ++ [(lv, msg)]) w).

Definition print (line : string) : M unit :=
  fun w => Some (Ok tt, set_stdout (stdout w ++ [line]) w).

(** [time.sleep], uninterrupted (see [tty_event] for where signals are
    delivered). *)
Definition sleep (ms : Z) : M unit :=
  fun w => Some (Ok tt, set_fs (faults w) (dirs w) (trace w ++ [Sleep ms]) w).

Definition path_exists (path : string) : M bool :=
  fun w => Some (Ok (existsb (String.eqb path) (dirs w)), w).

Definition gpio_base : string := "/sys/class/gpio".

(** [with open(path, 'w') as f: f.write(content)].  The next entry of
    [faults] says whether it goes through; writing a pin number to the
    export file makes that pin's directory. *)
Definition write_file (path content : string) : M unit :=
  fun w =>
    match faults w with
    | Some msg :: fs =>
        Some (Raise (OSError msg),
              set_fs fs (dirs w) (trace w ++ [FileWrite path content false]) w)
    | _ =>
        let ds := if String.eqb path (gpio_base ++ "/export")
                  then List.app (dirs w) [gpio_base ++ "/gpio" ++ content]
                  else dirs w in
        Some (Ok tt,
              set_fs (tl (faults w)) ds (trace w ++ [FileWrite path content true]) w)
    end.

(** [termios.tcgetattr(fd)]: the attributes of the terminal, or
    [termios.error] once the terminal is gone. *)
Definition tcgetattr : M termios :=
  fun w =>
    match stdin w with
    | [] => Some (Raise (TermiosError "(5, 'Input/output error')"), w)
    | _ => Some (Ok (tty w), w)
    end.
Definition tcsetattr (attrs : termios) : M unit :=
  fun w => Some (Ok tt, set_tty attrs w).
Definition tty_setraw : M unit :=
  fun w => Some (Ok tt, set_tty (setraw (tty w)) w).

(** [select.select([sys.stdin], [], [], 0.1)]: the three lists of ready
    objects.  With nothing to read it waits the window out and returns
    three empty lists. *)
Definition select_stdin : M (list fileobj * list fileobj * list fileobj) :=
  fun w =>
    match stdin w with
    | Quiet :: rest => Some (Ok ([], [], []), set_stdin rest (S (elapsed w)) w)
    | Intr :: rest => Some (Raise KeyboardInterrupt, set_stdin rest (elapsed w) w)
    | IOErr msg :: rest => Some (Raise (OSError msg), set_stdin rest (elapsed w) w)
    | Key _ :: _ | [] => Some (Ok ([Stdin], [], []), w)
    end.

(** The rest of a character whose first bytes are [got]: [need] more
    bytes, the next one within [lo..hi].  A byte out of range makes the
    decoder raise (the byte stays unread); so does the end of input inside a
    character.  The text of a [UnicodeDecodeError] is here the reason alone,
    where Python's message also names the codec, the byte and its
    position. *)
Fixpoint read_more (evs : list tty_event) (waited : nat) (got : string)
         (need lo hi : nat) : outcome string * list tty_event * nat :=
  match evs with
  | [] => (Raise (UnicodeDecodeError "unexpected end of data"), [], waited)
  | Quiet :: rest => read_more rest (S waited) got need lo hi
  | Key c :: rest =>
      if andb (Nat.leb lo (nat_of_ascii c)) (Nat.leb (nat_of_ascii c) hi) then
        match need with
        | S (S need') => read_more rest waited (got ++ chr c) (S need') 128 191
        | _ => (Ok (got ++ chr c), rest, waited)
        end
      else (Raise (UnicodeDecodeError "invalid continuation byte"), evs, waited)
  | Intr :: rest => (Raise KeyboardInterrupt, rest, waited)
  | IOErr msg :: rest => (Raise (OSError msg), rest, waited)
  end.

(** [sys.stdin.read(1)]: waits for as long as it takes for one character
    (given here by its bytes); the empty string at the end of input;
    [UnicodeDecodeError] for bytes that are no character. *)
Fixpoint read1 (evs : list tty_event) (waited : nat)
  : outcome string * list tty_event * nat :=
  match evs with
  | [] => (Ok "", [], waited)
  | Quiet :: rest => read1 rest (S waited)
  | Key c :: rest =>
      match utf8_lead c with
      | Some (O, _, _) => (Ok (chr c), rest, waited)
      | Some (need, lo, hi) => read_more rest waited (chr c) need lo hi
      | None => (Raise (UnicodeDecodeError "invalid start byte"), rest, waited)
      end
  | Intr :: rest => (Raise KeyboardInterrupt, rest, waited)
  | IOErr msg :: rest => (Raise (OSError msg), rest, waited)
  end.

Definition stdin_read1 : M string :=
  fun w =>
    let '(r, rest, n) := read1 (stdin w) (elapsed w) in
    Some (r, set_stdin rest n w).

(** [threading.Thread(target=self.simulate_button_press, args=(action, pin),
    daemon=True).start()]: the thread runs on its own; the main loop only
    starts it. *)
Definition start_thread (action : string) (pin : Z) : M unit :=
  fun w => Some (Ok tt, set_threads (threads w ++ [(action, pin)]) w).

(** *** The methods of [GPIOBridge] *)

Definition value_path (bcm_pin : Z) : string :=
  gpio_base ++ "/gpio" ++ str bcm_pin ++ "/value".

Definition setup_pin (item : string * Z) : M unit :=
  let '(action, board_pin) := item in
  bcm_pin <- subscript (bcm_of board_pin) (str board_pin) ;;
  let gpio_path := gpio_base ++ "/gpio" ++ str bcm_pin in
  there <- path_exists gpio_path ;;
  (if negb there then
     try_except
       (write_file (gpio_base ++ "/export") (str bcm_pin) ;;;
        logger INFO ("Exported GPIO " ++ str bcm_pin ++ " for " ++ upper action))
       (fun e => logger WARNING
                   ("Could not export GPIO " ++ str bcm_pin ++ ": " ++ exn_str e))
   else ret tt) ;;;
  try_except
    (write_file (gpio_path ++ "/direction") "out" ;;;
     write_file (gpio_path ++ "/value") "1" ;;;
     logger INFO ("Configured GPIO " ++ str bcm_pin ++ " (Board " ++ str board_pin
                  ++ ") for " ++ upper action))
    (fun e => logger WARNING
                ("Could not configure GPIO " ++ str bcm_pin ++ ": " ++ exn_str e)).

Definition setup_gpio_sysfs : M bool :=
  try_except
    (for_each gpio_pins setup_pin ;;;
     logger INFO "GPIO setup completed using sysfs" ;;;
     ret true)
    (fun e => logger ERROR ("Failed to setup GPIO via sysfs: " ++ exn_str e) ;;;
              ret false).

Definition gpio_write (board_pin value : Z) : M bool :=
  try_except
    (bcm_pin <- subscript (bcm_of board_pin) (str board_pin) ;;
     write_file (value_path bcm_pin) (str value) ;;;
     ret true)
    (fun e => logger ERROR ("Failed to write to GPIO " ++ str board_pin ++ ": "
                            ++ exn_str e) ;;;
              ret false).

Definition simulate_button_press (action : string) (pin : Z) : M unit :=
  try_except
    (logger INFO ("Simulating " ++ upper action ++ " button press on Board pin "
                  ++ str pin) ;;;
     (* Ensure pin is HIGH first (button not pressed) *)
     _ <- gpio_write pin 1 ;;
     sleep 10 ;;;
     (* Button press (LOW signal) *)
     pressed <- gpio_write pin 0 ;;
     if pressed then
       logger INFO ("  Button " ++ upper action ++ " pressed (Board " ++ str pin
                    ++ " -> LOW)") ;;;
       (* Hold the button for the specified duration *)
       sleep button_press_duration ;;;
       (* Button release (HIGH signal) *)
       released <- gpio_write pin 1 ;;
       if released then
         logger INFO ("  Button " ++ upper action ++ " released (Board " ++ str pin
                      ++ " -> HIGH)")
       else
         logger ERROR ("  Failed to release button " ++ upper action)
     else
       logger ERROR ("  Failed to press button " ++ upper action))
    (fun e => logger ERROR ("Failed to simulate button press: " ++ exn_str e)).

Definition get_char : M (option string) :=
  old_settings <- tcgetattr ;;
  try_finally
    (tty_setraw ;;;
     (* Check if data is available *)
     ready <- select_stdin ;;
     if truthy3 ready then
       ch <- stdin_read1 ;;
       (* Handle escape sequences (arrow keys) *)
       ch <- (if String.eqb ch (chr esc) then
                ready2 <- select_stdin ;;
                if truthy3 ready2 then
                  c2 <- stdin_read1 ;;
                  let ch := ch ++ c2 in
                  ready3 <- select_stdin ;;
                  if truthy3 ready3 then
                    c3 <- stdin_read1 ;;
                    ret (ch ++ c3)
                  else ret ch
                else ret ch
              else ret ch) ;;
       ret (Some ch)
     else ret None)
    (tcsetattr old_settings).

Definition cleanup_pin (item : string * Z) : M unit :=
  let '(action, pin) := item in
  _ <- gpio_write pin 1 ;;
  logger INFO ("  Set " ++ upper action ++ " (Board " ++ str pin ++ ") to HIGH").

Definition cleanup_gpio : M unit :=
  try_except
    (logger INFO "Starting safe GPIO cleanup..." ;;;
     (* Set all pins to HIGH (button not pressed) *)
     for_each gpio_pins cleanup_pin ;;;
     (* Small delay to ensure signals are stable *)
     sleep 100 ;;;
     logger INFO "GPIO cleanup completed (pins left in HIGH state)")
    (fun e => logger ERROR ("GPIO cleanup error: " ++ exn_str e)).

Definition newline : string := chr (ascii_of_nat 10).

Definition print_pin (item : string * Z) : M unit :=
  let '(action, pin) := item in
  bcm_pin <- subscript (bcm_of pin) (str pin) ;;
  print ("  " ++ ljust (upper action) 8 ++ " -> Board Pin " ++ str pin
         ++ " (BCM " ++ str bcm_pin ++ ")").

Definition print_instructions : M unit :=
  print (newline ++ repeat_string "=" 60) ;;;
  print "GPIO Bridge: Safe Keyboard to Hardware Button Simulation" ;;;
  print (repeat_string "=" 60) ;;;
  print "Key Mappings:" ;;;
  print "  Arrow Keys    -> Directional buttons" ;;;
  print "  WASD          -> Alternative directional buttons" ;;;
  print "  SPACE/ENTER   -> Press/Select button" ;;;
  print "  1, 2, 3       -> KEY1, KEY2, KEY3" ;;;
  print "  Q             -> Quit" ;;;
  print (repeat_string "-" 60) ;;;
  print "GPIO Pin Mapping:" ;;;
  for_each gpio_pins print_pin ;;;
  print (repeat_string "=" 60) ;;;
  print "This version uses sysfs and won't conflict with your main.py" ;;;
  print "Press keys to simulate button presses..." ;;;
  print "(Press 'q' to quit)" ;;;
  print "".

Definition stop_bridge : M unit :=
  (fun w => Some (Ok tt, set_is_running false w)) ;;;
  cleanup_gpio ;;;
  logger INFO "GPIO Bridge stopped".

(** The body of the [while] loop from the point where [char] is not [None]:
    what it does and whether the loop goes on. *)
Definition dispatch (char : string) : M loop_ctl :=
  (* Handle quit command *)
  if String.eqb (lower char) "q" then
    logger INFO "Quit command received" ;;;
    ret Break
  else
    (* Check if the character maps to a GPIO action *)
    if dict_mem String.eqb key_mapping char then
      action <- subscript (action_of char) char ;;
      if String.eqb action "quit" then ret Break
      else
        (if dict_mem String.eqb gpio_pins action then
           pin <- subscript (pin_of action) action ;;
           (* Run button press in a separate thread to avoid blocking *)
           start_thread action pin
         else ret tt) ;;;
        ret Continue
    else ret Continue.

(** [while self.is_running: ...], one unit of fuel per iteration. *)
Fixpoint bridge_loop (fuel : nat) : M unit :=
  match fuel with
  | O => diverge
  | S fuel' =>
      fun w =>
        if is_running w then
          (char <- get_char ;;
           match char with
           | None => bridge_loop fuel'
           | Some char =>
               ctl <- dispatch char ;;
               match ctl with
               | Break => ret tt
               | Continue => bridge_loop fuel'
               end
           end) w
        else ret tt w
  end.

Definition start_bridge (fuel : nat) : M bool :=
  ok <- setup_gpio_sysfs ;;
  if negb ok then
    logger ERROR "Failed to setup GPIO. Trying alternative method..." ;;;
    ret false
  else
    (fun w => Some (Ok tt, set_is_running true w)) ;;;
    print_instructions ;;;
    try_finally
      (try_except_interrupt
         (bridge_loop fuel)
         (logger INFO "Interrupted by user (Ctrl+C)"))
      stop_bridge ;;;
    ret true.

Definition sys_exit {A} (code : Z) : M A := raise (SystemExit code).

Definition main (fuel : nat) : M unit :=
  print "Starting Safe GPIO Bridge..." ;;;
  try_except
    (ok <- start_bridge fuel ;;
     if ok then logger INFO "Bridge completed successfully"
     else
       logger ERROR "Failed to start bridge" ;;;
       sys_exit 1)
    (fun e => logger ERROR ("Unexpected error: " ++ exn_str e) ;;;
              sys_exit 1).

(** The status the process ends with: 0 when [main] returns, the argument
    of [sys.exit], and 1 for an exception nobody caught. *)
Definition exit_status (r : outcome unit) : Z :=
  match r with
  | Ok _ => 0
  | Raise (SystemExit code) => code
  | Raise _ => 1
  end.

(** *** Reading the trace *)

Definition is_write (ev : io_event) : bool :=
  match ev with FileWrite _ _ _ => true | Sleep _ => false end.

Definition write_ok (ev : io_event) : bool :=
  match ev with FileWrite _ _ ok => ok | Sleep _ => true end.

(** The file writes among some events, as (path, text) pairs. *)
Fixpoint writes_of (evs : list io_event) : list (string * string) :=
  match evs with
  | [] => []
  | FileWrite p c _ :: evs' => (p, c) :: writes_of evs'
  | Sleep _ :: evs' => writes_of evs'
  end.

(** The text written to [path], oldest first. *)
Definition levels_written (path : string) (evs : list io_event) : list string :=
  map snd (filter (fun pc => String.eqb (fst pc) path) (writes_of evs)).

(** The text of the latest write to [path] that went through. *)
Fixpoint last_level (path : string) (evs : list io_event) (acc : option string)
  : option string :=
  match evs with
  | [] => acc
  | FileWrite p c true :: evs' =>
      last_level path evs' (if String.eqb p path then Some c else acc)
  | _ :: evs' => last_level path evs' acc
  end.

(** The events a computation added to the trace. *)
Definition emitted (before after : world) : list io_event :=
  skipn (List.length (trace before)) (trace after).

End Bridge.

Arguments mkWorld {termios}.
Arguments tty {termios}.
Arguments stdin {termios}.
Arguments elapsed {termios}.
Arguments faults {termios}.
Arguments dirs {termios}.
Arguments trace {termios}.
Arguments log {termios}.
Arguments stdout {termios}.
Arguments threads {termios}.
Arguments is_running {termios}.
Arguments set_tty {termios}.
Arguments set_stdin {termios}.
Arguments set_fs {termios}.
Arguments set_log {termios}.
Arguments set_stdout {termios}.
Arguments set_threads {termios}.
Arguments set_is_running {termios}.
Arguments ret {termios A}.
Arguments raise {termios A}.
Arguments diverge {termios A}.
Arguments bind {termios A B}.
Arguments try_except {termios A}.
Arguments try_except_interrupt {termios A}.
Arguments try_finally {termios A}.
Arguments for_each {termios A}.
Arguments subscript {termios V}.
Arguments logger {termios}.
Arguments print {termios}.
Arguments sleep {termios}.
Arguments path_exists {termios}.
Arguments write_file {termios}.
Arguments tcgetattr {termios}.
Arguments tcsetattr {termios}.
Arguments tty_setraw {termios}.
Arguments select_stdin {termios}.
Arguments stdin_read1 {termios}.
Arguments start_thread {termios}.
Arguments setup_pin {termios}.
Arguments setup_gpio_sysfs {termios}.
Arguments gpio_write {termios}.
Arguments simulate_button_press {termios}.
Arguments get_char {termios}.
Arguments cleanup_pin {termios}.
Arguments cleanup_gpio {termios}.
Arguments print_pin {termios}.
Arguments print_instructions {termios}.
Arguments stop_bridge {termios}.
Arguments dispatch {termios}.
Arguments bridge_loop {termios}.
Arguments start_bridge {termios}.
Arguments sys_exit {termios A}.
Arguments main {termios}.
Arguments emitted {termios}.

(** A terminal with two settings, to run the model on concrete input. *)
Inductive tty_mode : Type := Cooked | RawMode.

Definition to_raw (_ : tty_mode) : tty_mode := RawMode.

(** A freshly started process: nothing emitted, no pin directory yet. *)
Definition fresh (keys : list tty_event) (fs : list (option string)) : world tty_mode :=
  mkWorld Cooked keys 0%nat fs [] [] [] [] [] false.

(** The world a computation leaves behind, for runs on concrete input. *)
Definition world_after {A} (run : option (outcome A * world tty_mode))
  : world tty_mode :=
  match run with
  | Some (_, w') => w'
  | None => fresh [] []
  end.

(** After a pulse on UP with every write going through. *)
Definition after_up_pulse : world tty_mode :=
  Eval vm_compute in world_after (simulate_button_press "up" 31 (fresh [] [])).

(** After a pulse on UP whose second write, the LOW one, is refused. *)
Definition refused_press : world tty_mode := fresh [] [None; Some "EACCES"].

Definition after_refused_press : world tty_mode :=
  Eval vm_compute in world_after (simulate_button_press "up" 31 refused_press).

(** The value file of a board pin (of a registered one). *)
Definition pin_value_path (board_pin : Z) : string :=
  match bcm_of board_pin with
  | Some bcm_pin => value_path bcm_pin
  | None => ""
  end.

(** A computation that always comes back, with a value or an exception. *)
Definition total {termios A} (m : M termios A) : Prop :=
  forall w, exists r w', m w = Some (r, w').

(** A computation that only deals with the terminal: it may consume input,
    let time pass and change the terminal attributes, and the only
    exceptions it lets out are the ones the terminal gives. *)
Definition input_only {termios A} (m : M termios A) : Prop :=
  forall w r w',
    m w = Some (r, w') ->
    (exists t evs n, w' = set_tty t (set_stdin evs n w)) /\
    match r with
    | Raise (KeyError _) | Raise (SystemExit _) => False
    | _ => True
    end.

(** The pulse thread a key token stands for, if any: the arguments the
    dispatcher gives to [simulate_button_press]. *)
Definition pulse_of (token : string) : list (string * Z) :=
  match action_of token with
  | Some action =>
      match pin_of action with
      | Some pin => [(action, pin)]
      | None => []
      end
  | None => []
  end.

(** A process inside its loop, with the given keys to come. *)
Definition running (keys : list tty_event) : world tty_mode :=
  set_is_running true (fresh keys []).

(** One write attempt of [text] per path, in order: what they leave in the
    trace when the coming write outcomes are [fs].  An attempt goes through
    unless the file system refuses it. *)
Fixpoint attempts (fs : list (option string)) (paths : list string) (text : string)
  : list io_event :=
  match paths with
  | [] => []
  | path :: paths' =>
      FileWrite path text (match fs with Some _ :: _ => false | _ => true end)
      :: attempts (tl fs) paths' text
  end.

(** * Properties *)

(** ** Dictionaries *)

Section DictFacts.
Context {K V : Type} (eqb : K -> K -> bool).
Hypothesis eqb_eq : forall a b, eqb a b = true <-> a = b.

Lemma dict_get_In (d : list (K * V)) k v :
  dict_get eqb d k = Some v -> In (k, v) d.
Proof.
  induction d as [|[k' v'] d IH]; simpl; [discriminate|].
  destruct (eqb k k') eqn:E.
  - intros [= ->]. apply eqb_eq in E. subst. now left.
  - intros H. right. auto.
Qed.

Lemma In_dict_get (d : list (K * V)) k v :
  NoDup (keys d) -> In (k, v) d -> dict_get eqb d k = Some v.
Proof.
  induction d as [|[k' v'] d IH]; simpl; [tauto|].
  intros Hnd [H|H].
  - injection H as -> ->.
    assert (E : eqb k k = true) by now apply eqb_eq.
    now rewrite E.
  - inversion Hnd as [|? ? Hnotin Hnd']; subst.
    destruct (eqb k k') eqn:E.
    + apply eqb_eq in E. subst. exfalso. apply Hnotin.
      change (In (fst (k', v)) (map fst d)). now apply in_map.
    + now apply IH.
Qed.

(** Distinct values make the lookup injective. *)
Lemma dict_get_inj (d : list (K * V)) k1 k2 v :
  NoDup (values d) ->
  dict_get eqb d k1 = Some v -> dict_get eqb d k2 = Some v -> k1 = k2.
Proof.
  induction d as [|[k' v'] d IH]; simpl; [discriminate|].
  intros Hnd H1 H2. inversion Hnd as [|? ? Hnotin Hnd']; subst.
  destruct (eqb k1 k') eqn:E1, (eqb k2 k') eqn:E2.
  - apply eqb_eq in E1, E2. congruence.
  - injection H1 as ->. exfalso. apply Hnotin.
    apply dict_get_In in H2. change (In (snd (k2, v)) (map snd d)). now apply in_map.
  - injection H2 as ->. exfalso. apply Hnotin.
    apply dict_get_In in H1. change (In (snd (k1, v)) (map snd d)). now apply in_map.
  - eauto.
Qed.
End DictFacts.

Ltac nodup_literal :=
  repeat (constructor; [simpl; intuition discriminate|]); constructor.

Lemma gpio_pins_keys : keys gpio_pins = logical_buttons.
Proof. reflexivity. Qed.

Lemma gpio_pins_values_nodup : NoDup (values gpio_pins).
Proof. unfold values, gpio_pins; simpl. nodup_literal. Qed.

Lemma board_to_bcm_values_nodup : NoDup (values board_to_bcm).
Proof. unfold values, board_to_bcm; simpl. nodup_literal. Qed.

Lemma key_mapping_keys_nodup : NoDup (keys key_mapping).
Proof. unfold keys, key_mapping; simpl. nodup_literal. Qed.

(** Every pin of the registry has its chip pin. *)
Lemma registered_pins_have_bcm :
  Forall (fun item => exists bcm, bcm_of (snd item) = Some bcm) gpio_pins.
Proof. repeat constructor; simpl; eexists; reflexivity. Qed.

(** C3: both tables are total on their domains and injective.  The keys of
    [gpio_pins] are the eight logical buttons, each with a board pin; each
    board pin of [gpio_pins] has a chip pin in [board_to_bcm]; no two buttons
    share a board pin and no two board pins share a chip pin. *)
Theorem registry_total_and_injective :
  keys gpio_pins = logical_buttons /\
  Forall (fun b => exists p, pin_of b = Some p /\ exists c, bcm_of p = Some c)
         logical_buttons /\
  (forall b1 b2 p, pin_of b1 = Some p -> pin_of b2 = Some p -> b1 = b2) /\
  (forall p1 p2 c, bcm_of p1 = Some c -> bcm_of p2 = Some c -> p1 = p2).
Proof.
  split; [reflexivity|]. split; [|split].
  - repeat constructor; eexists; (split; [reflexivity|eexists; reflexivity]).
  - intros b1 b2 p. unfold pin_of.
    apply (dict_get_inj String.eqb String.eqb_eq). exact gpio_pins_values_nodup.
  - intros p1 p2 c. unfold bcm_of.
    apply (dict_get_inj Z.eqb Z.eqb_eq). exact board_to_bcm_values_nodup.
Qed.

(** C10: the key mapping has exactly fourteen entries: the four arrow
    sequences, space and enter (both to press), 1/2/3, w/s/a/d and q; every
    other token is unmapped. *)
Theorem key_mapping_is_fourteen_tokens :
  List.length key_mapping = 14%nat /\
  action_of (arrow "A") = Some "up" /\ action_of (arrow "B") = Some "down" /\
  action_of (arrow "D") = Some "left" /\ action_of (arrow "C") = Some "right" /\
  action_of " " = Some "press" /\ action_of (chr cr) = Some "press" /\
  action_of "1" = Some "key1" /\ action_of "2" = Some "key2" /\
  action_of "3" = Some "key3" /\
  action_of "w" = Some "up" /\ action_of "s" = Some "down" /\
  action_of "a" = Some "left" /\ action_of "d" = Some "right" /\
  action_of "q" = Some "quit" /\
  (forall tok,
      ~ In tok [arrow "A"; arrow "B"; arrow "D"; arrow "C"; " "; chr cr;
                "1"; "2"; "3"; "w"; "s"; "a"; "d"; "q"] ->
      action_of tok = None).
Proof.
  repeat (split; [reflexivity|]).
  intros tok Hnot. destruct (action_of tok) as [a|] eqn:E; [|reflexivity].
  exfalso. apply Hnot.
  apply (dict_get_In String.eqb String.eqb_eq) in E.
  change (In (fst (tok, a)) (keys key_mapping)). unfold keys. now apply in_map.
Qed.

(** ** The pin driver *)

Section BridgeFacts.
Variable termios : Type.
Variable setraw : termios -> termios.
Implicit Type w : world termios.

Lemma emitted_app w w' evs :
  trace w' = (trace w ++ evs)%list -> emitted w w' = evs.
Proof.
  unfold emitted. intros ->.
  rewrite skipn_app, skipn_all, Nat.sub_diag. reflexivity.
Qed.

Lemma value_path_not_export bcm :
  String.eqb (value_path bcm) (gpio_base ++ "/export") = false.
Proof. reflexivity. Qed.

(** [gpio_write] on a registered pin: one write attempt on the pin's value
    file, failing exactly when the environment makes it fail, and then
    logged and turned into [False]. *)
Lemma gpio_write_registered pin bcm v w :
  bcm_of pin = Some bcm ->
  gpio_write pin v w =
    match faults w with
    | Some msg :: fs =>
        Some (Ok false,
              set_log (log w ++ [(ERROR, "Failed to write to GPIO " ++ str pin
                                         ++ ": " ++ msg)])
                (set_fs fs (dirs w)
                   (trace w ++ [FileWrite (value_path bcm) (str v) false]) w))
    | _ =>
        Some (Ok true,
              set_fs (tl (faults w)) (dirs w)
                (trace w ++ [FileWrite (value_path bcm) (str v) true]) w)
    end.
Proof.
  intros Hb. unfold gpio_write, try_except, bind, subscript. rewrite Hb.
  unfold ret at 1. cbv beta iota. unfold write_file.
  rewrite value_path_not_export.
  destruct (faults w) as [|[msg|] fs]; reflexivity.
Qed.

(** [gpio_write] never raises and never diverges. *)
Lemma gpio_write_total pin v w :
  exists ok w', gpio_write pin v w = Some (Ok ok, w').
Proof.
  destruct (bcm_of pin) as [bcm|] eqn:Hb.
  - rewrite (gpio_write_registered _ _ _ _ Hb).
    destruct (faults w) as [|[msg|] fs]; do 2 eexists; reflexivity.
  - unfold gpio_write, try_except, bind, subscript. rewrite Hb.
    do 2 eexists; reflexivity.
Qed.

Lemma last_level_app path evs1 evs2 acc :
  last_level path (evs1 ++ evs2) acc = last_level path evs2 (last_level path evs1 acc).
Proof.
  revert acc. induction evs1 as [|[p c [|]|ms] evs1 IH]; intros acc; simpl; auto.
Qed.

Ltac fields_in H :=
  cbn [faults trace log dirs stdin tty elapsed stdout threads is_running
       set_fs set_log set_tty set_stdin set_stdout set_threads set_is_running tl] in H.

Ltac run_in H :=
  unfold try_except, bind, logger, sleep, ret in H; cbv beta iota in H; fields_in H.

(** Names what a run added to the trace: turns [emitted w W] into the list
    of events appended to [trace w], keeping the equation as [T]. *)
Ltac name_emitted w T :=
  match goal with
  | |- context [emitted w ?W] =>
      eassert (T : trace W = (trace w ++ _)%list)
        by (cbn [trace set_log set_fs]; rewrite <- ?app_assoc; reflexivity);
      rewrite (emitted_app _ _ _ T) in *; cbn [List.app] in *
  end.

(** C2: a pulse on a registered pin in which every write goes through
    writes 1, then 0, then 1 to the pin's value file, in that order and
    nothing else, and the latest level of the pin is 1 (HIGH) afterwards.
    (For a pin missing from [board_to_bcm] every [gpio_write] fails, so a
    pulse without failures is a pulse on a registered pin.) *)
Theorem pulse_writes_high_low_high action pin bcm w r w' :
  bcm_of pin = Some bcm ->
  simulate_button_press action pin w = Some (r, w') ->
  forallb write_ok (emitted w w') = true ->
  r = Ok tt /\
  emitted w w' =
    [FileWrite (value_path bcm) "1" true; Sleep 10;
     FileWrite (value_path bcm) "0" true; Sleep button_press_duration;
     FileWrite (value_path bcm) "1" true] /\
  levels_written (value_path bcm) (emitted w w') = ["1"; "0"; "1"] /\
  last_level (value_path bcm) (trace w') None = Some "1".
Proof.
  intros Hb Hrun Hok. unfold simulate_button_press in Hrun.
  destruct (faults w) as [|[m1|] [|[m2|] [|[m3|] fs]]] eqn:F;
  run_in Hrun;
  repeat (rewrite (gpio_write_registered pin bcm _ _ Hb) in Hrun; fields_in Hrun;
          try rewrite F in Hrun; cbv beta iota in Hrun; fields_in Hrun);
  injection Hrun as <- <-;
  name_emitted w T; try discriminate Hok;
  (split; [reflexivity|]); (split; [reflexivity|]); split.
  all: try (unfold levels_written; cbn [writes_of filter map fst snd];
            rewrite String.eqb_refl; reflexivity).
  all: cbn [trace set_log set_fs]; rewrite <- ?app_assoc, last_level_app;
    cbn [last_level List.app]; rewrite String.eqb_refl; reflexivity.
Qed.

Lemma str_1 : str 1 = "1".
Proof. reflexivity. Qed.

Lemma str_0 : str 0 = "0".
Proof. reflexivity. Qed.

(** C6: in a pulse whose LOW write fails, that failed write is the last
    thing the pulse does to the outside: the trace of the pulse is the HIGH
    write, the settle delay and the failed LOW write, with no release write
    after it, and the last two log records are the two error records of
    the failure. *)
Theorem failed_press_aborts_pulse action pin bcm w r w' :
  bcm_of pin = Some bcm ->
  simulate_button_press action pin w = Some (r, w') ->
  In (FileWrite (value_path bcm) "0" false) (emitted w w') ->
  r = Ok tt /\
  (exists ok1,
      emitted w w' =
        [FileWrite (value_path bcm) "1" ok1; Sleep 10;
         FileWrite (value_path bcm) "0" false]) /\
  (exists l msg,
      log w' =
        List.app l
          [(ERROR, "Failed to write to GPIO " ++ str pin ++ ": " ++ msg);
           (ERROR, "  Failed to press button " ++ upper action)]).
Proof.
  intros Hb Hrun Hlow. unfold simulate_button_press in Hrun.
  destruct (faults w) as [|[m1|] [|[m2|] [|[m3|] fs]]] eqn:F;
  run_in Hrun;
  repeat (rewrite (gpio_write_registered pin bcm _ _ Hb) in Hrun; fields_in Hrun;
          try rewrite F in Hrun; cbv beta iota in Hrun; fields_in Hrun);
  injection Hrun as <- <-;
  name_emitted w T; rewrite ?str_1, ?str_0 in Hlow;
  try (exfalso; simpl in Hlow; intuition discriminate).
  all: split; [reflexivity|]; split; [eexists; reflexivity|].
  all: cbn [log set_log set_fs]; do 2 eexists; rewrite <- app_assoc; reflexivity.
Qed.

(** ** Shutdown *)

Lemma last_level_all_ok path evs acc :
  forallb write_ok evs = true ->
  last_level path evs acc =
    fold_left (fun _ c => Some c) (levels_written path evs) acc.
Proof.
  revert acc. induction evs as [|[p c ok|ms] evs IH]; intros acc H; simpl in *.
  - reflexivity.
  - apply andb_prop in H as [-> H]. unfold levels_written in *. simpl.
    destruct (String.eqb p path); simpl; now rewrite IH.
  - now rewrite IH.
Qed.

Lemma writes_of_app evs1 evs2 :
  writes_of (evs1 ++ evs2) = (writes_of evs1 ++ writes_of evs2)%list.
Proof.
  induction evs1 as [|[p c ok|ms] evs1 IH]; simpl; now rewrite ?IH.
Qed.

(** The loop of [cleanup_gpio] over a list of registered pins: it runs to
    the end, touches only the file system and the log, and makes one write
    attempt of "1" per item, in order. *)
Lemma cleanup_pins_run (l : list (string * Z)) :
  Forall (fun item => exists bcm, bcm_of (snd item) = Some bcm) l ->
  forall w, exists fs evs lg,
    for_each l cleanup_pin w
      = Some (Ok tt, set_log lg (set_fs fs (dirs w) (trace w ++ evs) w)) /\
    writes_of evs = map (fun item => (pin_value_path (snd item), "1")) l.
Proof.
  induction 1 as [|[action pin] l [bcm Hb] _ IH]; intros w.
  - exists (faults w), [], (log w). split; [|reflexivity].
    rewrite app_nil_r. destruct w; reflexivity.
  - simpl in Hb.
    assert (Hp : pin_value_path pin = value_path bcm)
      by (unfold pin_value_path; now rewrite Hb).
    cbn [for_each cleanup_pin]. unfold bind at 1 2.
    rewrite (gpio_write_registered pin bcm _ _ Hb).
    destruct (faults w) as [|[msg|] fs0];
      cbv beta iota; unfold logger at 1;
      match goal with
      | |- context [for_each l cleanup_pin ?W1] =>
          destruct (IH W1) as (fs & evs & lg & -> & Hw)
      end;
      cbn [faults trace log dirs set_fs set_log];
      eexists fs, (_ :: evs), lg;
      (split; [rewrite <- app_assoc; reflexivity|]);
      cbn [writes_of map snd]; rewrite Hw, Hp; reflexivity.
Qed.

Lemma cleanup_gpio_run w :
  exists fs evs lg,
    cleanup_gpio w
      = Some (Ok tt, set_log lg (set_fs fs (dirs w) (trace w ++ evs) w)) /\
    writes_of evs = map (fun item => (pin_value_path (snd item), "1")) gpio_pins.
Proof.
  unfold cleanup_gpio, try_except, bind at 1. unfold logger at 1. cbv beta iota.
  unfold bind at 1.
  match goal with
  | |- context [for_each gpio_pins cleanup_pin ?W1] =>
      destruct (cleanup_pins_run gpio_pins registered_pins_have_bcm W1)
        as (fs & evs & lg & -> & Hw)
  end.
  cbv beta iota. unfold bind, sleep, logger. cbv beta iota.
  cbn [faults trace log dirs set_fs set_log].
  exists fs, (evs ++ [Sleep 100])%list. eexists.
  split; [rewrite <- app_assoc; reflexivity|].
  rewrite writes_of_app, Hw. reflexivity.
Qed.

(** The loop of [cleanup_gpio] again, now with the outcome of each write:
    the attempts go through exactly where the file system lets them. *)
Lemma cleanup_pins_attempts (l : list (string * Z)) :
  Forall (fun item => exists bcm, bcm_of (snd item) = Some bcm) l ->
  forall w, exists fs lg,
    for_each l cleanup_pin w
    = Some (Ok tt,
            set_log lg
              (set_fs fs (dirs w)
                 (trace w ++ attempts (faults w)
                               (map (fun item => pin_value_path (snd item)) l) "1")
                 w)).
Proof.
  induction 1 as [|[action pin] l [bcm Hb] _ IH]; intros w.
  - exists (faults w), (log w). cbn [map attempts].
    rewrite app_nil_r. destruct w; reflexivity.
  - simpl in Hb.
    assert (Hp : pin_value_path pin = value_path bcm)
      by (unfold pin_value_path; now rewrite Hb).
    cbn [for_each cleanup_pin map snd attempts]. rewrite Hp. unfold bind at 1 2.
    rewrite (gpio_write_registered pin bcm _ _ Hb).
    destruct (faults w) as [|[msg|] fs0];
      cbv beta iota; unfold logger at 1;
      match goal with
      | |- context [for_each l cleanup_pin ?W1] =>
          destruct (IH W1) as (fs & lg & ->)
      end;
      cbn [faults trace log dirs set_fs set_log tl];
      exists fs, lg; rewrite <- app_assoc; reflexivity.
Qed.

Lemma cleanup_gpio_attempts w :
  exists fs lg,
    cleanup_gpio w
    = Some (Ok tt,
            set_log lg
              (set_fs fs (dirs w)
                 (trace w ++
                  List.app (attempts (faults w)
                              (map (fun item => pin_value_path (snd item)) gpio_pins)
                              "1")
                           [Sleep 100])
                 w)).
Proof.
  unfold cleanup_gpio, try_except, bind at 1. unfold logger at 1. cbv beta iota.
  unfold bind at 1.
  match goal with
  | |- context [for_each gpio_pins cleanup_pin ?W1] =>
      destruct (cleanup_pins_attempts gpio_pins registered_pins_have_bcm W1)
        as (fs & lg & ->)
  end.
  cbv beta iota. unfold bind, sleep, logger. cbv beta iota.
  cbn [faults trace log dirs set_fs set_log].
  do 2 eexists. rewrite <- app_assoc. reflexivity.
Qed.

Lemma stop_bridge_attempts w :
  exists fs lg,
    stop_bridge w
    = Some (Ok tt,
            set_is_running false
              (set_log lg
                 (set_fs fs (dirs w)
                    (trace w ++
                     List.app (attempts (faults w)
                                 (map (fun item => pin_value_path (snd item))
                                      gpio_pins) "1")
                              [Sleep 100])
                    w))).
Proof.
  unfold stop_bridge, bind at 1. cbv beta iota. unfold bind.
  destruct (cleanup_gpio_attempts (set_is_running false w)) as (fs & lg & ->).
  unfold logger. do 2 eexists. reflexivity.
Qed.




(** ** The key decoder *)

Lemma total_ret A (a : A) : total (ret (termios := termios) a).
Proof. intros w. do 2 eexists. reflexivity. Qed.

Lemma total_bind A B (m : M termios A) (k : A -> M termios B) :
  total m -> (forall a, total (k a)) -> total (bind m k).
Proof.
  intros Hm Hk w. unfold bind. destruct (Hm w) as ([a|e] & w1 & ->).
  - apply Hk.
  - do 2 eexists. reflexivity.
Qed.

Lemma total_select : total (select_stdin (termios := termios)).
Proof.
  intros w. unfold select_stdin.
  destruct (stdin w) as [|[|c| |msg] rest]; do 2 eexists; reflexivity.
Qed.

Lemma total_read1 : total (stdin_read1 (termios := termios)).
Proof.
  intros w. unfold stdin_read1.
  destruct (read1 (stdin w) (elapsed w)) as [[r rest] n]. do 2 eexists. reflexivity.
Qed.

Lemma total_setraw : total (tty_setraw setraw).
Proof. intros w. do 2 eexists. reflexivity. Qed.

(** [finally: tcsetattr(..., old)] puts [old] back however the body ends. *)
Lemma try_finally_tcsetattr A (m : M termios A) old w :
  total m ->
  exists r w1, m w = Some (r, w1) /\
               try_finally m (tcsetattr old) w = Some (r, set_tty old w1).
Proof.
  intros Hm. unfold try_finally. destruct (Hm w) as (r & w1 & E). rewrite E.
  exists r, w1. split; reflexivity.
Qed.

Ltac total_steps :=
  repeat first
    [ apply total_ret | apply total_select | apply total_read1 | apply total_setraw
    | apply total_bind; [|intros ?]
    | match goal with |- total (if ?b then _ else _) => destruct b end ].

(** C8: [get_char] always comes back, by a return or by an exception from
    the poll or the read, and in both cases the terminal attributes are
    then the ones that were in effect when it was called. *)
Theorem get_char_restores_terminal w :
  exists r w', get_char setraw w = Some (r, w') /\ tty w' = tty w.
Proof.
  unfold get_char, bind at 1, tcgetattr.
  destruct (stdin w) as [|ev evs]; cbv beta iota.
  - do 2 eexists. split; reflexivity.
  - match goal with
    | |- context [try_finally ?m (tcsetattr ?old) w] =>
        destruct (try_finally_tcsetattr _ m old w) as (r & w1 & _ & ->)
    end.
    + total_steps.
    + exists r, (set_tty (tty w) w1). split; reflexivity.
Qed.

(** The exception path of the previous theorem is a real one: a read that
    fails still leaves the terminal as it was. *)
Example get_char_restores_after_error (t : termios) :
  get_char setraw (mkWorld t [Key esc; IOErr "EIO"] 0 [] [] [] [] [] [] true)
  = Some (Raise (OSError "EIO"), mkWorld t [] 0 [] [] [] [] [] [] true).
Proof. reflexivity. Qed.

(** C1: when nothing arrives during the first three poll windows and the
    byte [a] only after them, [get_char] does not return [None] after the
    first window: the tuple [select] returns counts as true, so the call
    goes on to [read(1)], waits there through all three windows and returns
    the byte. *)
Theorem silent_poll_waits_in_read (t : termios) :
  get_char setraw (mkWorld t [Quiet; Quiet; Quiet; Key "a"] 0 [] [] [] [] [] [] true)
  = Some (Ok (Some "a"), mkWorld t [] 3 [] [] [] [] [] [] true).
Proof. reflexivity. Qed.

(** C5: when a lone escape byte is followed by nothing for two poll windows
    and then by [x] and [y], [get_char] does not come back with the bare
    escape after the first window: it waits in [read(1)] for the later
    bytes and returns all three. *)
Theorem lone_escape_waits_for_more (t : termios) :
  get_char setraw
    (mkWorld t [Key esc; Quiet; Quiet; Key "x"; Key "y"] 0 [] [] [] [] [] [] true)
  = Some (Ok (Some (String esc "xy")), mkWorld t [] 2 [] [] [] [] [] [] true).
Proof. reflexivity. Qed.

Lemma bind_Ok_inv A B (m : M termios A) (k : A -> M termios B) w b w' :
  bind m k w = Some (Ok b, w') ->
  exists a w1, m w = Some (Ok a, w1) /\ k a w1 = Some (Ok b, w').
Proof.
  unfold bind. destruct (m w) as [[[a|e] w1]|]; try discriminate.
  intros H. now exists a, w1.
Qed.

Lemma try_finally_Ok_inv A (m : M termios A) f w b w' :
  try_finally m f w = Some (Ok b, w') -> exists w1, m w = Some (Ok b, w1).
Proof.
  unfold try_finally. destruct (m w) as [[r w1]|]; try discriminate.
  destruct (f w1) as [[[u|e] w2]|]; try discriminate.
  intros [= -> _]. now exists w1.
Qed.

(** The [return None] of [get_char] is never reached, whatever the input. *)
Lemma get_char_never_no_event w w' : get_char setraw w <> Some (Ok None, w').
Proof.
  intros H. unfold get_char in H.
  apply bind_Ok_inv in H as (old & w0 & _ & H).
  apply try_finally_Ok_inv in H as (w1 & H).
  apply bind_Ok_inv in H as (u & w2 & _ & H).
  apply bind_Ok_inv in H as (ready & w3 & _ & H).
  unfold truthy3 in H. cbv iota in H.
  apply bind_Ok_inv in H as (ch & w4 & _ & H).
  apply bind_Ok_inv in H as (ch' & w5 & _ & H).
  discriminate H.
Qed.

(** ** The dispatcher and the main loop *)

Lemma read1_quiets n evs t :
  read1 (repeat Quiet n ++ evs) t = read1 evs (n + t)%nat.
Proof.
  revert t. induction n as [|n IH]; intros t; simpl; [reflexivity|].
  rewrite IH. f_equal. lia.
Qed.

Lemma read1_ascii c rest t :
  (nat_of_ascii c < 128)%nat -> read1 (Key c :: rest) t = (Ok (chr c), rest, t).
Proof.
  intros Hc. cbn [read1]. unfold utf8_lead.
  apply Nat.ltb_lt in Hc. rewrite Hc. reflexivity.
Qed.

Lemma tcgetattr_alive w :
  stdin w <> [] -> tcgetattr w = Some (Ok (tty w), w).
Proof. unfold tcgetattr. destruct (stdin w); [congruence|reflexivity]. Qed.

Lemma not_nil_after_quiets n (ev : tty_event) rest :
  List.app (repeat Quiet n) (ev :: rest) <> [].
Proof. destruct n; discriminate. Qed.

(** Polling and then reading, as [get_char] does it three times over: the
    poll is always taken for a success, so the read follows and waits for
    the next byte. *)
Lemma poll_then_read A (k : string -> M termios A) (k0 : M termios A) w n c rest :
  stdin w = List.app (repeat Quiet n) (Key c :: rest) ->
  (nat_of_ascii c < 128)%nat ->
  bind select_stdin
       (fun ready => if truthy3 ready then bind stdin_read1 k else k0) w
  = k (chr c) (set_stdin rest (n + elapsed w)%nat w).
Proof.
  intros Hin Hc. destruct w as [t i e f d tr lg so th run].
  cbn [stdin elapsed] in *. subst i.
  unfold bind, select_stdin, stdin_read1, truthy3.
  destruct n as [|n]; cbn [repeat List.app stdin elapsed set_stdin].
  - rewrite (read1_ascii _ _ _ Hc). reflexivity.
  - cbn [read1]. rewrite read1_quiets, (read1_ascii _ _ _ Hc). unfold set_stdin.
    cbn [stdin elapsed tty faults dirs trace log stdout threads is_running].
    do 2 f_equal. lia.
Qed.

(** An ASCII byte other than escape, possibly after some quiet windows, is
    returned as a one-character token; the windows are waited through. *)
Lemma get_char_plain_key w n c rest :
  stdin w = (repeat Quiet n ++ Key c :: rest)%list -> c <> esc ->
  (nat_of_ascii c < 128)%nat ->
  get_char setraw w
  = Some (Ok (Some (chr c)), set_stdin rest (n + elapsed w)%nat w).
Proof.
  intros Hin Hc Hascii.
  assert (E : String.eqb (chr c) (chr esc) = false).
  { apply String.eqb_neq. intros [= ->]. now apply Hc. }
  unfold get_char, bind at 1.
  rewrite tcgetattr_alive by (rewrite Hin; apply not_nil_after_quiets).
  cbv beta iota. unfold try_finally, bind at 1, tty_setraw. cbv beta iota.
  rewrite (poll_then_read _ _ _ (set_tty (setraw (tty w)) w) n c rest Hin Hascii).
  cbv beta. rewrite E. unfold bind, ret, tcsetattr.
  destruct w; reflexivity.
Qed.

Lemma quit_key_is_ascii c :
  c = "q"%char \/ c = "Q"%char -> c <> esc /\ (nat_of_ascii c < 128)%nat.
Proof. intros [->| ->]; (split; [discriminate|vm_compute; lia]). Qed.

Lemma dispatch_quit w c :
  c = "q"%char \/ c = "Q"%char ->
  dispatch (chr c) w
  = Some (Ok Break, set_log (log w ++ [(INFO, "Quit command received")]) w).
Proof. intros [->| ->]; reflexivity. Qed.

(** In any iteration, the token [q] or [Q] ends the loop at once. *)
Lemma quit_key_breaks_loop fuel w n c rest :
  is_running w = true ->
  stdin w = (repeat Quiet n ++ Key c :: rest)%list ->
  c = "q"%char \/ c = "Q"%char ->
  bridge_loop setraw (S fuel) w
  = Some (Ok tt, set_log (log w ++ [(INFO, "Quit command received")])
                   (set_stdin rest (n + elapsed w)%nat w)).
Proof.
  intros Hrun Hin Hc. cbn [bridge_loop]. rewrite Hrun. unfold bind at 1.
  rewrite (get_char_plain_key w n c rest Hin (proj1 (quit_key_is_ascii c Hc))
             (proj2 (quit_key_is_ascii c Hc))).
  unfold bind. rewrite (dispatch_quit _ c Hc). reflexivity.
Qed.

(** C9 as the code has it: a token that is not a key of [key_mapping] and
    whose lower-case form is not [q] changes nothing (no file write, no
    thread, no log record, no exception), and the loop goes on to its next
    iteration from the state the decoder left. *)
Theorem unmapped_token_is_ignored tok w :
  action_of tok = None -> lower tok <> "q" ->
  dispatch tok w = Some (Ok Continue, w) /\
  (forall fuel w0,
      is_running w0 = true ->
      get_char setraw w0 = Some (Ok (Some tok), w) ->
      bridge_loop setraw (S fuel) w0 = bridge_loop setraw fuel w).
Proof.
  intros Hun Hq.
  assert (D : dispatch tok w = Some (Ok Continue, w)).
  { unfold dispatch. apply String.eqb_neq in Hq. rewrite Hq.
    unfold dict_mem. unfold action_of in Hun. rewrite Hun. reflexivity. }
  split; [exact D|].
  intros fuel w0 Hrun Hget. cbn [bridge_loop]. rewrite Hrun.
  unfold bind at 1. rewrite Hget. unfold bind. rewrite D. reflexivity.
Qed.

(** ** Startup, and the whole run on a quit key *)

(** Setting up one registered pin never raises, whichever of its three
    writes fail; it touches the file system and the log only. *)
Lemma setup_pin_run item w :
  (exists bcm, bcm_of (snd item) = Some bcm) ->
  exists fs ds tr lg,
    setup_pin item w = Some (Ok tt, set_log lg (set_fs fs ds tr w)).
Proof.
  destruct item as [action pin]. intros [bcm Hb]. simpl in Hb.
  unfold setup_pin, bind, subscript. rewrite Hb.
  unfold ret, path_exists. cbv beta iota.
  destruct w as [t i e f d tr lg so th run].
  destruct (existsb _ _); cbn [negb];
    unfold try_except, bind, write_file, logger, ret;
    cbn [faults trace log dirs set_fs set_log tl];
    destruct f as [|[m1|] [|[m2|] [|[m3|] f]]];
    cbn [faults trace log dirs set_fs set_log tl is_Exception];
    do 4 eexists; reflexivity.
Qed.

Lemma for_each_fs_log A (body : A -> M termios unit) l :
  Forall (fun x => forall w, exists fs ds tr lg,
              body x w = Some (Ok tt, set_log lg (set_fs fs ds tr w))) l ->
  forall w, exists fs ds tr lg,
    for_each l body w = Some (Ok tt, set_log lg (set_fs fs ds tr w)).
Proof.
  induction 1 as [|x l Hx _ IH]; intros w.
  - exists (faults w), (dirs w), (trace w), (log w). destruct w; reflexivity.
  - cbn [for_each]. unfold bind.
    destruct (Hx w) as (fs & ds & tr & lg & ->).
    destruct (IH (set_log lg (set_fs fs ds tr w))) as (fs' & ds' & tr' & lg' & ->).
    exists fs', ds', tr', lg'. reflexivity.
Qed.

Lemma setup_gpio_sysfs_run w :
  exists fs ds tr lg,
    setup_gpio_sysfs w = Some (Ok true, set_log lg (set_fs fs ds tr w)).
Proof.
  unfold setup_gpio_sysfs, try_except, bind.
  destruct (for_each_fs_log _ setup_pin gpio_pins) with (w := w)
    as (fs & ds & tr & lg & ->).
  - eapply Forall_impl; [|exact registered_pins_have_bcm].
    intros item Hb w0. now apply setup_pin_run.
  - unfold logger, ret. do 4 eexists. reflexivity.
Qed.

Lemma print_run line w :
  exists lines, print line w = Some (Ok tt, set_stdout lines w).
Proof. eexists. reflexivity. Qed.

Lemma stdout_only_then (m k : M termios unit) :
  (forall w, exists lines, m w = Some (Ok tt, set_stdout lines w)) ->
  (forall w, exists lines, k w = Some (Ok tt, set_stdout lines w)) ->
  forall w, exists lines, bind m (fun _ => k) w = Some (Ok tt, set_stdout lines w).
Proof.
  intros Hm Hk w. unfold bind. destruct (Hm w) as (l1 & ->).
  destruct (Hk (set_stdout l1 w)) as (l2 & ->). exists l2. reflexivity.
Qed.

Lemma print_pins_run (l : list (string * Z)) :
  Forall (fun item => exists bcm, bcm_of (snd item) = Some bcm) l ->
  forall w, exists lines,
    for_each l print_pin w = Some (Ok tt, set_stdout lines w).
Proof.
  induction 1 as [|[action pin] l [bcm Hb] _ IH].
  - intros w. exists (stdout w). destruct w; reflexivity.
  - cbn [for_each]. apply stdout_only_then; [|exact IH].
    intros w. simpl in Hb. unfold print_pin, bind, subscript. rewrite Hb.
    unfold ret. apply print_run.
Qed.

Lemma print_instructions_run w :
  exists lines, print_instructions w = Some (Ok tt, set_stdout lines w).
Proof.
  revert w. unfold print_instructions.
  repeat match goal with
         | |- forall w, exists _, bind _ _ w = _ => apply stdout_only_then
         | |- forall w, exists _, print _ w = _ => intros w; apply print_run
         | |- forall w, exists _, for_each _ _ w = _ =>
             exact (print_pins_run gpio_pins registered_pins_have_bcm)
         end.
Qed.

Lemma stop_bridge_run w :
  exists fs evs lg,
    stop_bridge w
      = Some (Ok tt, set_is_running false
                       (set_log lg (set_fs fs (dirs w) (trace w ++ evs) w))) /\
    writes_of evs = map (fun item => (pin_value_path (snd item), "1")) gpio_pins.
Proof.
  unfold stop_bridge, bind at 1. cbv beta iota. unfold bind.
  destruct (cleanup_gpio_run (set_is_running false w)) as (fs & evs & lg & -> & Hw).
  unfold logger. do 3 eexists. split; [reflexivity|exact Hw].
Qed.



(** ** More on the pin driver *)

Lemma gpio_write_missing_eq pin v w :
  bcm_of pin = None ->
  gpio_write pin v w =
    Some (Ok false,
          set_log (log w ++ [(ERROR, "Failed to write to GPIO " ++ str pin ++ ": "
                                     ++ str pin)]) w).
Proof.
  intros Hb. unfold gpio_write, try_except, bind, subscript. rewrite Hb. reflexivity.
Qed.

(** X1: [gpio_write] on a board pin that has no entry in [board_to_bcm]
    does not raise: the [KeyError] is caught, no file is written (the trace
    and the coming write outcomes are untouched), one error record with the
    pin as the exception text is logged, and the result is [False]. *)
Theorem gpio_write_unknown_pin_is_caught pin v w :
  bcm_of pin = None ->
  exists w',
    gpio_write pin v w = Some (Ok false, w') /\
    trace w' = trace w /\ faults w' = faults w /\
    log w' = List.app (log w)
               [(ERROR, "Failed to write to GPIO " ++ str pin ++ ": " ++ str pin)].
Proof.
  intros Hb. rewrite (gpio_write_missing_eq _ _ _ Hb). eexists.
  repeat split; reflexivity.
Qed.

(** X2: [gpio_write] on a registered pin never raises; it makes exactly one
    write attempt, of [str(value)] on the pin's value file, returns whether
    that write went through, and logs (one error record) exactly when it did
    not. *)
Theorem gpio_write_returns_write_outcome pin bcm v w r w' :
  bcm_of pin = Some bcm ->
  gpio_write pin v w = Some (r, w') ->
  exists ok,
    r = Ok ok /\
    emitted w w' = [FileWrite (value_path bcm) (str v) ok] /\
    (ok = true -> log w' = log w) /\
    (ok = false ->
     exists msg, log w' = List.app (log w)
                            [(ERROR, "Failed to write to GPIO " ++ str pin
                                     ++ ": " ++ msg)]).
Proof.
  intros Hb Hrun. rewrite (gpio_write_registered _ _ _ _ Hb) in Hrun.
  destruct (faults w) as [|[msg|] fs]; injection Hrun as <- <-.
  - exists true. split; [reflexivity|]. split; [now apply emitted_app|].
    split; [reflexivity|discriminate].
  - exists false. split; [reflexivity|]. split; [now apply emitted_app|].
    split; [discriminate|]. intros _. exists msg. reflexivity.
  - exists true. split; [reflexivity|]. split; [now apply emitted_app|].
    split; [reflexivity|discriminate].
Qed.

(** ** More on setup *)

(** X3: what setting up one registered pin writes, whichever writes fail.
    The export file is written (with the chip pin number) only when the pin's
    directory does not exist yet; whether or not that export went through,
    the direction file is written next with "out"; and the value file is
    written with "1" exactly when the direction write went through.  Nothing
    is raised. *)
Theorem setup_pin_writes action pin bcm w r w' :
  bcm_of pin = Some bcm ->
  setup_pin (action, pin) w = Some (r, w') ->
  r = Ok tt /\
  exists ok_export ok_direction ok_value,
    emitted w w' =
      List.app
        (if existsb (String.eqb (gpio_base ++ "/gpio" ++ str bcm)) (dirs w)
         then []
         else [FileWrite (gpio_base ++ "/export") (str bcm) ok_export])
        (FileWrite (gpio_base ++ "/gpio" ++ str bcm ++ "/direction") "out" ok_direction
         :: (if ok_direction
             then [FileWrite (value_path bcm) "1" ok_value]
             else [])).
Proof.
  intros Hb Hrun. unfold setup_pin, bind, subscript in Hrun. rewrite Hb in Hrun.
  unfold ret, path_exists in Hrun. cbv beta iota in Hrun.
  destruct (existsb _ (dirs w)); cbn [negb] in Hrun;
    unfold try_except, bind, write_file, logger, ret in Hrun;
    cbn [faults trace log dirs set_fs set_log tl] in Hrun;
    destruct (faults w) as [|[m1|] [|[m2|] [|[m3|] f]]];
    cbn [faults trace log dirs set_fs set_log tl is_Exception] in Hrun;
    injection Hrun as <- <-; (split; [reflexivity|]);
    name_emitted w T;
    first [ exists true, true, true; reflexivity
          | exists true, true, false; reflexivity
          | exists true, false, true; reflexivity
          | exists false, true, true; reflexivity
          | exists false, true, false; reflexivity
          | exists false, false, true; reflexivity ].
Qed.

(** X4: [setup_gpio_sysfs] returns [True] whichever of its file writes
    fail: every failure is caught per pin and logged as a warning, so the
    last log record is the completion message and the [False] result is
    never produced.  It reads no input and leaves the terminal alone. *)
Theorem setup_always_reports_success w :
  exists w',
    setup_gpio_sysfs w = Some (Ok true, w') /\
    stdin w' = stdin w /\ tty w' = tty w /\ threads w' = threads w /\
    exists l, log w' = List.app l [(INFO, "GPIO setup completed using sysfs")].
Proof.
  unfold setup_gpio_sysfs, try_except, bind.
  destruct (for_each_fs_log _ setup_pin gpio_pins) with (w := w)
    as (fs & ds & tr & lg & ->).
  - eapply Forall_impl; [|exact registered_pins_have_bcm].
    intros item Hb w0. now apply setup_pin_run.
  - unfold logger, ret. eexists. split; [reflexivity|].
    repeat split; try reflexivity. eexists. reflexivity.
Qed.

(** ** More on the pulse *)

(** X5: a pulse never raises, on any pin and whichever writes fail, and
    the only file it ever writes is the value file of its own pin (at most
    three times); on a pin without a [board_to_bcm] entry it writes no file at
    all.  It reads no input, leaves the terminal alone and starts no
    thread. *)
Theorem pulse_writes_only_its_value_file action pin w :
  exists w',
    simulate_button_press action pin w = Some (Ok tt, w') /\
    Forall (fun pc => Some (fst pc) = option_map value_path (bcm_of pin))
           (writes_of (emitted w w')) /\
    (List.length (writes_of (emitted w w')) <= 3)%nat /\
    stdin w' = stdin w /\ tty w' = tty w /\ threads w' = threads w.
Proof.
  unfold simulate_button_press. destruct (bcm_of pin) as [bcm|] eqn:Hb.
  - destruct (faults w) as [|[m1|] [|[m2|] [|[m3|] fs]]] eqn:F;
      unfold try_except, bind, logger, sleep, ret; cbv beta iota;
      repeat (rewrite (gpio_write_registered pin bcm _ _ Hb);
              cbn [faults trace log dirs set_fs set_log tl];
              try rewrite F; cbv beta iota;
              cbn [faults trace log dirs set_fs set_log tl]);
      eexists; (split; [reflexivity|]); name_emitted w T;
      cbn [writes_of List.length option_map];
      (split; [repeat constructor|]); (split; [lia|]); repeat split; reflexivity.
  - unfold try_except, bind, logger, sleep, ret. cbv beta iota.
    repeat (rewrite (gpio_write_missing_eq pin _ _ Hb); cbv beta iota).
    eexists. split; [reflexivity|]. name_emitted w T.
    cbn [writes_of List.length option_map].
    split; [constructor|]. split; [lia|]. repeat split; reflexivity.
Qed.

(** X6: the result of the first (defensive HIGH) write is ignored: in a
    pulse whose LOW write goes through, the hold delay and the release write
    always follow, whether or not that first write failed; and when the
    release write fails the pulse ends by logging the failure. *)
Theorem press_is_always_followed_by_release action pin bcm w r w' :
  bcm_of pin = Some bcm ->
  simulate_button_press action pin w = Some (r, w') ->
  In (FileWrite (value_path bcm) "0" true) (emitted w w') ->
  exists ok1 ok3,
    emitted w w' =
      [FileWrite (value_path bcm) "1" ok1; Sleep 10;
       FileWrite (value_path bcm) "0" true; Sleep button_press_duration;
       FileWrite (value_path bcm) "1" ok3] /\
    (ok3 = false ->
     exists l, log w' = List.app l
                          [(ERROR, "  Failed to release button " ++ upper action)]).
Proof.
  intros Hb Hrun Hlow. unfold simulate_button_press in Hrun.
  destruct (faults w) as [|[m1|] [|[m2|] [|[m3|] fs]]] eqn:F;
  run_in Hrun;
  repeat (rewrite (gpio_write_registered pin bcm _ _ Hb) in Hrun; fields_in Hrun;
          try rewrite F in Hrun; cbv beta iota in Hrun; fields_in Hrun);
  injection Hrun as <- <-;
  name_emitted w T; rewrite ?str_1, ?str_0 in Hlow;
  try (exfalso; simpl in Hlow; intuition discriminate).
  all: do 2 eexists; (split; [reflexivity|]).
  all: first [ discriminate | intros _; cbn [log set_log set_fs]; eexists; reflexivity ].
Qed.

(** ** More on the key decoder *)

Lemma ascii_input_key l1 c l2 :
  ascii_input (List.app l1 (Key c :: l2)) -> (nat_of_ascii c < 128)%nat.
Proof.
  unfold ascii_input. intros H. apply Forall_app in H as [_ H].
  inversion H as [|? ? Hc _]. exact Hc.
Qed.

Lemma ascii_input_tail l1 l2 : ascii_input (List.app l1 l2) -> ascii_input l2.
Proof. unfold ascii_input. intros H. now apply Forall_app in H. Qed.

(** X7: on input of the ASCII range, a byte other than escape, possibly
    arriving after some quiet poll windows, is returned as a one-character
    token; exactly that byte is consumed, the quiet windows before it are
    waited through (in the poll or in the read), and the terminal attributes
    are back to what they were. *)
Theorem plain_byte_is_a_one_character_token w n c rest r w' :
  stdin w = List.app (repeat Quiet n) (Key c :: rest) ->
  ascii_input (stdin w) -> c <> esc ->
  get_char setraw w = Some (r, w') ->
  r = Ok (Some (chr c)) /\ stdin w' = rest /\
  elapsed w' = (n + elapsed w)%nat /\ tty w' = tty w.
Proof.
  intros Hin Hascii Hc Hrun. rewrite Hin in Hascii.
  rewrite (get_char_plain_key w n c rest Hin Hc (ascii_input_key _ _ _ Hascii))
    in Hrun.
  injection Hrun as <- <-. repeat split; reflexivity.
Qed.

Lemma get_char_escape_sequence w n1 n2 c2 c3 rest :
  stdin w = Key esc :: List.app (repeat Quiet n1)
                         (Key c2 :: List.app (repeat Quiet n2) (Key c3 :: rest)) ->
  (nat_of_ascii c2 < 128)%nat -> (nat_of_ascii c3 < 128)%nat ->
  get_char setraw w
  = Some (Ok (Some (String esc (String c2 (chr c3)))),
          set_stdin rest (n1 + n2 + elapsed w)%nat w).
Proof.
  intros Hin H2 H3. unfold get_char, bind at 1.
  rewrite tcgetattr_alive by (rewrite Hin; discriminate).
  cbv beta iota.
  unfold try_finally, bind at 1, tty_setraw. cbv beta iota.
  rewrite (poll_then_read _ _ _ (set_tty (setraw (tty w)) w) 0%nat esc _ Hin)
    by (vm_compute; lia).
  cbv beta.
  change (String.eqb (chr esc) (chr esc)) with true. cbv iota.
  unfold bind at 1.
  erewrite (poll_then_read _ _ _ _ n1 c2) by first [reflexivity|exact H2].
  cbv beta zeta.
  erewrite (poll_then_read _ _ _ _ n2 c3) by first [reflexivity|exact H3].
  unfold ret, tcsetattr. destruct w as [t i e f d tr lg so th run].
  unfold set_stdin, set_tty.
  cbn [stdin elapsed tty faults dirs trace log stdout threads is_running].
  do 3 f_equal. lia.
Qed.

(** X8: on input of the ASCII range, an escape byte followed by two more
    bytes is returned as one three-character token, also when the later
    bytes arrive after quiet poll windows (the sequence split across reads
    gives the same token as the sequence arriving at once); the three bytes
    and nothing else are consumed.  For the bytes of the up arrow this is
    the key of [key_mapping] that stands for the UP button. *)
Theorem escape_sequence_is_one_token w n1 n2 c2 c3 rest r w' :
  stdin w = Key esc :: List.app (repeat Quiet n1)
                         (Key c2 :: List.app (repeat Quiet n2) (Key c3 :: rest)) ->
  ascii_input (stdin w) ->
  get_char setraw w = Some (r, w') ->
  r = Ok (Some (String esc (String c2 (chr c3)))) /\
  stdin w' = rest /\ tty w' = tty w /\
  (c2 = "["%char -> c3 = "A"%char ->
   action_of (String esc (String c2 (chr c3))) = Some "up").
Proof.
  intros Hin Hascii Hrun. rewrite Hin in Hascii.
  assert (H2 : (nat_of_ascii c2 < 128)%nat).
  { apply (ascii_input_key (Key esc :: repeat Quiet n1) _ _ Hascii). }
  assert (H3 : (nat_of_ascii c3 < 128)%nat).
  { apply (ascii_input_key
             (Key esc :: List.app (repeat Quiet n1) (Key c2 :: repeat Quiet n2))
             c3 rest).
    cbn [List.app]. rewrite <- app_assoc. exact Hascii. }
  rewrite (get_char_escape_sequence w n1 n2 c2 c3 rest Hin H2 H3) in Hrun.
  injection Hrun as <- <-. repeat split; try reflexivity.
  intros -> ->. reflexivity.
Qed.

(** Once the terminal is gone [get_char] fails before it has changed
    anything: [tcgetattr] is outside the [try]. *)
Lemma get_char_at_end_of_input w :
  stdin w = [] ->
  get_char setraw w = Some (Raise (TermiosError "(5, 'Input/output error')"), w).
Proof.
  intros Hin. unfold get_char, bind, tcgetattr. rewrite Hin. reflexivity.
Qed.

Lemma read_more_outcome evs :
  forall t got need lo hi,
    match fst (fst (read_more evs t got need lo hi)) with
    | Raise (KeyError _) | Raise (SystemExit _) => False
    | _ => True
    end.
Proof.
  induction evs as [|[|c| |msg] evs IH]; intros t got need lo hi; cbn [read_more];
    try exact I; try apply IH.
  destruct (andb _ _); [|exact I].
  destruct need as [|[|need]]; first [exact I | apply IH].
Qed.

Lemma read1_outcome evs t :
  match fst (fst (read1 evs t)) with
  | Raise (KeyError _) | Raise (SystemExit _) => False
  | _ => True
  end.
Proof.
  revert t. induction evs as [|[|c| |msg] evs IH]; intros t; cbn [read1];
    try exact I; try apply IH.
  destruct (utf8_lead c) as [[[[|need] lo] hi]|]; try exact I.
  apply read_more_outcome.
Qed.

Lemma input_only_ret A (a : A) : input_only (ret (termios := termios) a).
Proof.
  intros w r w' [= <- <-]. split; [|exact I].
  exists (tty w), (stdin w), (elapsed w). destruct w; reflexivity.
Qed.

Lemma input_only_bind A B (m : M termios A) (k : A -> M termios B) :
  input_only m -> (forall a, input_only (k a)) -> input_only (bind m k).
Proof.
  intros Hm Hk w r w'. unfold bind.
  destruct (m w) as [[[a|e] w1]|] eqn:E; [| |discriminate].
  - destruct (Hm _ _ _ E) as ((t & evs & n & ->) & _). intros H.
    destruct (Hk a _ _ _ H) as ((t' & evs' & n' & ->) & Hr).
    split; [|exact Hr]. exists t', evs', n'. reflexivity.
  - intros [= <- <-]. exact (Hm _ _ _ E).
Qed.

Lemma input_only_tcgetattr : input_only (tcgetattr (termios := termios)).
Proof.
  intros w r w'. unfold tcgetattr.
  destruct (stdin w) as [|ev evs] eqn:E; intros [= <- <-]; (split; [|exact I]);
    exists (tty w), (stdin w), (elapsed w); destruct w; reflexivity.
Qed.

Lemma input_only_select : input_only (select_stdin (termios := termios)).
Proof.
  intros w r w'. unfold select_stdin.
  destruct (stdin w) as [|[|c| |msg] rest] eqn:E; intros [= <- <-];
    (split; [|exact I]);
    first [ exists (tty w), (stdin w), (elapsed w); destruct w; reflexivity
          | exists (tty w), rest, (S (elapsed w)); destruct w; reflexivity
          | exists (tty w), rest, (elapsed w); destruct w; reflexivity ].
Qed.

Lemma input_only_read1 : input_only (stdin_read1 (termios := termios)).
Proof.
  intros w r w'. unfold stdin_read1.
  pose proof (read1_outcome (stdin w) (elapsed w)) as Hk.
  destruct (read1 (stdin w) (elapsed w)) as [[r1 rest] n]. intros [= <- <-].
  split; [|exact Hk]. exists (tty w), rest, n. destruct w; reflexivity.
Qed.

Lemma input_only_setraw : input_only (tty_setraw setraw).
Proof.
  intros w r w' [= <- <-]. split; [|exact I].
  exists (setraw (tty w)), (stdin w), (elapsed w). destruct w; reflexivity.
Qed.

Lemma input_only_finally A (m : M termios A) old :
  input_only m -> input_only (try_finally m (tcsetattr old)).
Proof.
  intros Hm w r w'. unfold try_finally.
  destruct (m w) as [[r1 w1]|] eqn:E; [|discriminate].
  unfold tcsetattr. intros [= <- <-].
  destruct (Hm _ _ _ E) as ((t & evs & n & ->) & Hr).
  split; [|exact Hr]. exists old, evs, n. reflexivity.
Qed.

Ltac input_only_steps :=
  repeat first
    [ apply input_only_ret | apply input_only_select | apply input_only_read1
    | apply input_only_setraw | apply input_only_finally
    | apply input_only_tcgetattr
    | apply input_only_bind; [|intros ?]
    | match goal with |- input_only (if ?b then _ else _) => destruct b end ].

Lemma input_only_get_char : input_only (get_char setraw).
Proof. unfold get_char. input_only_steps. Qed.

(** However [get_char] ends, it has changed nothing but the pending input
    and the time waited; it never gives "no event", and the exceptions it
    lets out are not [KeyError] or [SystemExit]. *)
Lemma get_char_step w r w' :
  get_char setraw w = Some (r, w') ->
  (exists evs n, w' = set_stdin evs n w) /\
  match r with
  | Ok None | Raise (KeyError _) | Raise (SystemExit _) => False
  | _ => True
  end.
Proof.
  intros Hrun.
  assert (Hk : match r with
               | Ok None | Raise (KeyError _) | Raise (SystemExit _) => False
               | _ => True
               end).
  { pose proof (proj2 (input_only_get_char _ _ _ Hrun)) as Hr.
    destruct r as [[tok|]|e]; [exact I| |exact Hr].
    exact (get_char_never_no_event _ _ Hrun). }
  split; [|exact Hk].
  revert Hrun. unfold get_char, bind at 1, tcgetattr.
  destruct (stdin w) as [|ev evs0] eqn:Hin.
  - intros [= <- <-]. exists [], (elapsed w). rewrite <- Hin. destruct w; reflexivity.
  - cbv beta iota. unfold try_finally.
    match goal with
    | |- match ?b w with _ => _ end = _ -> _ =>
        assert (Hb : input_only b) by input_only_steps;
        destruct (b w) as [[r1 w1]|] eqn:E; [|discriminate]
    end.
    unfold tcsetattr. intros [= <- <-].
    destruct (Hb _ _ _ E) as ((t & evs & n & ->) & _).
    exists evs, n. destruct w; reflexivity.
Qed.

(** X10: the decoder deals with the terminal only.  However [get_char]
    ends, by returning or by an exception, no file has been written, nothing
    has been logged or printed, no thread has been started, and the terminal
    attributes are the ones from before the call; and when it returns, it
    returns a token, never "no event". *)
Theorem decoder_touches_only_the_terminal w r w' :
  get_char setraw w = Some (r, w') ->
  trace w' = trace w /\ faults w' = faults w /\ dirs w' = dirs w /\
  log w' = log w /\ stdout w' = stdout w /\ threads w' = threads w /\
  is_running w' = is_running w /\ tty w' = tty w /\
  r <> Ok None.
Proof.
  intros Hrun. destruct (get_char_step _ _ _ Hrun) as ((evs & n & ->) & Hk).
  repeat split; try reflexivity. intros ->. exact Hk.
Qed.

(** ** More on the dispatcher and the loop *)

Lemma lower_ascii_q c : lower_ascii c = "q"%char -> c = "q"%char \/ c = "Q"%char.
Proof.
  destruct c as [[] [] [] [] [] [] [] []]; vm_compute; intros H;
    first [discriminate H | left; reflexivity | right; reflexivity].
Qed.

Lemma lower_q tok : lower tok = "q" -> tok = "q" \/ tok = "Q".
Proof.
  destruct tok as [|c [|c' s]]; try discriminate.
  unfold lower. cbn [map_string]. intros [= H].
  destruct (lower_ascii_q c H) as [->| ->]; [left|right]; reflexivity.
Qed.

(** Any token but [q] and [Q]: the loop goes on, after starting the thread
    of the token's button if it has one. *)
Lemma dispatch_non_quit tok w :
  lower tok <> "q" ->
  dispatch tok w
  = Some (Ok Continue, set_threads (List.app (threads w) (pulse_of tok)) w).
Proof.
  intros Hq. unfold dispatch, pulse_of, dict_mem.
  assert (E : String.eqb (lower tok) "q" = false) by now apply String.eqb_neq.
  rewrite E. unfold action_of.
  destruct (dict_get String.eqb key_mapping tok) as [a|] eqn:Ha.
  - apply (dict_get_In String.eqb String.eqb_eq) in Ha. simpl in Ha.
    repeat (destruct Ha as [Ha|Ha];
            [injection Ha as <- <-;
             first [reflexivity | exfalso; apply Hq; reflexivity]|]).
    contradiction.
  - rewrite app_nil_r. destruct w; reflexivity.
Qed.

Lemma dispatch_run tok w :
  exists ctl lg th,
    dispatch tok w
    = Some (Ok ctl, set_threads (List.app (threads w) th)
                      (set_log (List.app (log w) lg) w)).
Proof.
  destruct (String.eqb_spec (lower tok) "q") as [Hq|Hq].
  - exists Break, [(INFO, "Quit command received")], [].
    unfold dispatch. rewrite Hq. cbn [String.eqb Ascii.eqb Bool.eqb andb].
    rewrite app_nil_r. destruct w; reflexivity.
  - exists Continue, [], (pulse_of tok). rewrite (dispatch_non_quit _ _ Hq).
    rewrite app_nil_r. destruct w; reflexivity.
Qed.

(** What any finished run of the loop has done: consumed input, waited,
    logged and started threads; and it has not ended by a [KeyError] or a
    [SystemExit]. *)
Lemma bridge_loop_frame fuel :
  forall w r w1,
    bridge_loop setraw fuel w = Some (r, w1) ->
    (exists evs n lg th,
        w1 = set_threads (List.app (threads w) th)
               (set_log (List.app (log w) lg) (set_stdin evs n w))) /\
    match r with
    | Raise (KeyError _) | Raise (SystemExit _) => False
    | _ => True
    end.
Proof.
  induction fuel as [|fuel IH]; intros w r w1; [discriminate|].
  cbn [bridge_loop]. destruct (is_running w) eqn:Hrun.
  - unfold bind at 1.
    destruct (get_char setraw w) as [[[tok|e] w0]|] eqn:G; [| |discriminate].
    + destruct (get_char_step _ _ _ G) as ((evs & n & ->) & Hk).
      destruct tok as [tok|]; [|contradiction].
      unfold bind.
      match goal with
      | |- context [dispatch tok ?W] =>
          destruct (dispatch_run tok W) as (ctl & lg & th & ->)
      end.
      destruct ctl.
      * intros H. destruct (IH _ _ _ H) as ((evs' & n' & lg' & th' & ->) & Hr).
        split; [|exact Hr].
        exists evs', n', (List.app lg lg'), (List.app th th').
        destruct w; unfold set_threads, set_log, set_stdin;
          cbn [tty stdin elapsed faults dirs trace log stdout threads is_running].
        rewrite !app_assoc. reflexivity.
      * intros [= <- <-]. split; [|exact I]. exists evs, n, lg, th. reflexivity.
    + intros [= <- <-]. destruct (get_char_step _ _ _ G) as ((evs & n & ->) & Hk).
      split; [|exact Hk]. exists evs, n, [], [].
      rewrite !app_nil_r. destruct w; reflexivity.
  - intros [= <- <-]. split; [|exact I].
    exists (stdin w), (elapsed w), [], []. rewrite !app_nil_r. destruct w; reflexivity.
Qed.

(** X11: every key of [key_mapping] other than the quit key starts exactly
    one pulse thread, for the button the key stands for and on that button's
    board pin, which has a chip pin (so the thread's writes cannot fail on a
    missing table entry); the dispatcher itself writes no file and logs
    nothing, and the loop goes on. *)
Theorem mapped_key_starts_one_pulse_thread tok action w :
  action_of tok = Some action -> action <> "quit" ->
  exists pin bcm,
    pin_of action = Some pin /\ bcm_of pin = Some bcm /\
    dispatch tok w
    = Some (Ok Continue, set_threads (List.app (threads w) [(action, pin)]) w).
Proof.
  intros Ha Hq. apply (dict_get_In String.eqb String.eqb_eq) in Ha. simpl in Ha.
  repeat (destruct Ha as [Ha|Ha];
          [injection Ha as <- <-;
           first [ exfalso; apply Hq; reflexivity
                 | do 2 eexists; split; [reflexivity|]; split; reflexivity ]|]).
  contradiction.
Qed.

(** X12: between setup and shutdown the main thread writes no file: however
    long the loop runs and however it ends, by a break or by an exception,
    the trace of file writes and sleeps, the pending write outcomes and the
    pin directories are as they were when it started, and so are the
    terminal attributes; what the loop does is consume input, log and start
    threads (the threads started before are still there, in order). *)
Theorem loop_itself_never_writes_a_pin fuel w r w1 :
  bridge_loop setraw fuel w = Some (r, w1) ->
  trace w1 = trace w /\ faults w1 = faults w /\ dirs w1 = dirs w /\
  tty w1 = tty w /\ is_running w1 = is_running w /\ stdout w1 = stdout w /\
  (exists th, threads w1 = List.app (threads w) th).
Proof.
  intros H. destruct (bridge_loop_frame _ _ _ _ H) as ((evs & n & lg & th & ->) & Hr).
  repeat split; try reflexivity. exists th. reflexivity.
Qed.

Lemma loop_over_plain_keys cs :
  forall w fuel q rest,
    Forall (fun c => c <> esc /\ c <> "q"%char /\ c <> "Q"%char) cs ->
    Forall (fun c => (nat_of_ascii c < 128)%nat) cs ->
    q = "q"%char \/ q = "Q"%char ->
    is_running w = true ->
    stdin w = List.app (map Key cs) (Key q :: rest) ->
    bridge_loop setraw (List.length cs + S fuel) w
    = Some (Ok tt,
            set_log (List.app (log w) [(INFO, "Quit command received")])
              (set_threads
                 (List.app (threads w) (flat_map (fun c => pulse_of (chr c)) cs))
                 (set_stdin rest (elapsed w) w))).
Proof.
  induction cs as [|c cs IH]; intros w fuel q rest Hcs Has Hq Hrun Hin.
  - cbn [List.length Nat.add].
    rewrite (quit_key_breaks_loop fuel w 0 q rest Hrun Hin Hq).
    cbn [flat_map]. rewrite app_nil_r. destruct w; reflexivity.
  - inversion Hcs as [|? ? (Hesc & Hlo & Hup) Hcs']; subst.
    inversion Has as [|? ? Hc Has']; subst.
    cbn [List.length Nat.add bridge_loop]. rewrite Hrun. unfold bind at 1.
    rewrite (get_char_plain_key w 0 c _ Hin Hesc Hc). unfold bind.
    rewrite dispatch_non_quit.
    2:{ intros H. apply lower_q in H. destruct H as [[= ->]|[= ->]]; congruence. }
    erewrite IH; [|exact Hcs'|exact Has'|exact Hq|exact Hrun|reflexivity].
    destruct w; unfold set_threads, set_log, set_stdin;
      cbn [tty stdin elapsed faults dirs trace log stdout threads is_running
           flat_map].
    rewrite <- !app_assoc. reflexivity.
Qed.

Lemma ascii_input_keys cs evs :
  ascii_input (List.app (map Key cs) evs) ->
  Forall (fun c => (nat_of_ascii c < 128)%nat) cs.
Proof.
  unfold ascii_input. induction cs as [|c cs IH]; cbn [map List.app]; intros H.
  - constructor.
  - inversion H as [|? ? Hc H']; subst. constructor; [exact Hc|now apply IH].
Qed.

(** X13: on input of the ASCII range, typing any sequence of plain keys
    (no escape byte, no [q] or [Q]) and then [q] or [Q] ends the loop after
    as many iterations as there are keys plus one, and by then exactly the
    pulse threads of the mapped keys among them have been started, in the
    order the keys were typed; unmapped keys in between change nothing.  All
    the keys are consumed and the loop itself has written no file. *)
Theorem typed_keys_start_their_pulses_in_order cs w fuel q rest :
  Forall (fun c => c <> esc /\ c <> "q"%char /\ c <> "Q"%char) cs ->
  ascii_input (stdin w) ->
  q = "q"%char \/ q = "Q"%char ->
  is_running w = true ->
  stdin w = List.app (map Key cs) (Key q :: rest) ->
  exists w',
    bridge_loop setraw (List.length cs + S fuel) w = Some (Ok tt, w') /\
    threads w' = List.app (threads w) (flat_map (fun c => pulse_of (chr c)) cs) /\
    stdin w' = rest /\ trace w' = trace w.
Proof.
  intros Hcs Has Hq Hrun Hin. rewrite Hin in Has.
  rewrite (loop_over_plain_keys cs w fuel q rest Hcs (ascii_input_keys _ _ Has)
             Hq Hrun Hin).
  eexists. split; [reflexivity|]. repeat split; reflexivity.
Qed.

(** ** More on whole runs *)

Lemma get_char_raises w n ev e rest :
  stdin w = List.app (repeat Quiet n) (ev :: rest) ->
  (ev = Intr /\ e = KeyboardInterrupt) \/ (exists msg, ev = IOErr msg /\ e = OSError msg) ->
  get_char setraw w = Some (Raise e, set_stdin rest (n + elapsed w)%nat w).
Proof.
  intros Hin Hev.
  destruct w as [t i el f d tr lg so th run]. cbn [stdin elapsed] in *. subst i.
  unfold get_char, bind, try_finally, tcgetattr, tty_setraw, select_stdin,
    stdin_read1, tcsetattr, ret, truthy3.
  destruct Hev as [[-> ->]|(msg & -> & ->)];
    (destruct n as [|n];
     cbn [repeat List.app stdin elapsed tty set_tty set_stdin];
     [reflexivity|]);
    cbn [read1]; rewrite read1_quiets; cbn [read1];
    cbn [stdin elapsed tty set_tty set_stdin]; unfold set_stdin, set_tty;
    cbn [stdin elapsed tty faults dirs trace log stdout threads is_running];
    do 3 f_equal; lia.
Qed.

Lemma loop_raises fuel w n ev e rest :
  is_running w = true ->
  stdin w = List.app (repeat Quiet n) (ev :: rest) ->
  (ev = Intr /\ e = KeyboardInterrupt) \/ (exists msg, ev = IOErr msg /\ e = OSError msg) ->
  bridge_loop setraw (S fuel) w
  = Some (Raise e, set_stdin rest (n + elapsed w)%nat w).
Proof.
  intros Hrun Hin Hev. cbn [bridge_loop]. rewrite Hrun. unfold bind.
  rewrite (get_char_raises w n ev e rest Hin Hev). reflexivity.
Qed.

Lemma loop_at_end_of_input fuel w :
  is_running w = true -> stdin w = [] ->
  bridge_loop setraw (S fuel) w
  = Some (Raise (TermiosError "(5, 'Input/output error')"), w).
Proof.
  intros Hrun Hin. cbn [bridge_loop]. rewrite Hrun. unfold bind.
  rewrite (get_char_at_end_of_input w Hin). reflexivity.
Qed.

(** [start_bridge] up to the loop: setup and the instructions touch the
    file system, the log and the output only, and then the loop starts with
    [is_running] set. *)
Lemma start_bridge_unfold w :
  exists fs ds tr lg lines,
    forall fuel,
      start_bridge setraw fuel w
      = bind (try_finally
                (try_except_interrupt (bridge_loop setraw fuel)
                   (logger INFO "Interrupted by user (Ctrl+C)"))
                stop_bridge)
             (fun _ => ret true)
             (set_stdout lines
                (set_is_running true (set_log lg (set_fs fs ds tr w)))).
Proof.
  destruct (setup_gpio_sysfs_run w) as (fs & ds & tr & lg & Hs).
  destruct (print_instructions_run
              (set_is_running true (set_log lg (set_fs fs ds tr w))))
    as (lines & Hp).
  exists fs, ds, tr, lg, lines. intros fuel.
  unfold start_bridge, bind at 1. rewrite Hs. cbv beta iota. cbn [negb].
  unfold bind at 1. cbv beta iota. unfold bind at 1. rewrite Hp. reflexivity.
Qed.

(** How any finished [start_bridge] came about: the loop finished in some
    way, an interrupt was logged if that was the way, [stop_bridge] ran from
    there, and any other exception of the loop comes out again. *)
Lemma start_bridge_finish fuel w r w' :
  start_bridge setraw fuel w = Some (r, w') ->
  exists fs ds tr lg lines rl w1,
    bridge_loop setraw fuel
      (set_stdout lines (set_is_running true (set_log lg (set_fs fs ds tr w))))
    = Some (rl, w1) /\
    stop_bridge
      (match rl with
       | Raise KeyboardInterrupt =>
           set_log (List.app (log w1) [(INFO, "Interrupted by user (Ctrl+C)")]) w1
       | _ => w1
       end) = Some (Ok tt, w') /\
    match rl with
    | Ok _ | Raise KeyboardInterrupt => r = Ok true
    | Raise e => r = Raise e /\ is_Exception e = true
    end.
Proof.
  destruct (start_bridge_unfold w) as (fs & ds & tr & lg & lines & H).
  rewrite H. clear H. unfold bind, try_finally, try_except_interrupt.
  set (w0 := set_stdout lines (set_is_running true (set_log lg (set_fs fs ds tr w)))).
  destruct (bridge_loop setraw fuel w0) as [[rl w1]|] eqn:L; [|discriminate].
  pose proof (bridge_loop_frame _ _ _ _ L) as (_ & Hk).
  intros Hrun. exists fs, ds, tr, lg, lines, rl, w1. split; [exact L|].
  destruct rl as [[]|[k|msg|msg|msg| |code]]; try contradiction.
  - destruct (stop_bridge_run w1) as (fs' & evs & lg' & E & _).
    rewrite E in Hrun |- *. unfold ret in Hrun. injection Hrun as <- <-.
    split; reflexivity.
  - destruct (stop_bridge_run w1) as (fs' & evs & lg' & E & _).
    rewrite E in Hrun |- *. injection Hrun as <- <-. repeat split; reflexivity.
  - destruct (stop_bridge_run w1) as (fs' & evs & lg' & E & _).
    rewrite E in Hrun |- *. injection Hrun as <- <-. repeat split; reflexivity.
  - destruct (stop_bridge_run w1) as (fs' & evs & lg' & E & _).
    rewrite E in Hrun |- *. injection Hrun as <- <-. repeat split; reflexivity.
  - unfold logger in Hrun.
    destruct (stop_bridge_run
                (set_log (List.app (log w1) [(INFO, "Interrupted by user (Ctrl+C)")]) w1))
      as (fs' & evs & lg' & E & _).
    rewrite E in Hrun |- *. unfold ret in Hrun. injection Hrun as <- <-.
    split; reflexivity.
Qed.

Lemma main_finish fuel w r w' :
  main setraw fuel w = Some (r, w') ->
  exists rs w2,
    start_bridge setraw fuel
      (set_stdout (List.app (stdout w) ["Starting Safe GPIO Bridge..."]) w)
    = Some (rs, w2) /\
    ((rs = Ok true /\ r = Ok tt /\
      w' = set_log (List.app (log w2) [(INFO, "Bridge completed successfully")]) w2)
     \/
     (exists e,
         is_Exception e = true /\
         rs = Raise e /\ r = Raise (SystemExit 1) /\
         w' = set_log (List.app (log w2)
                         [(ERROR, "Unexpected error: " ++ exn_str e)]) w2)).
Proof.
  unfold main, bind at 1, print at 1. cbv beta iota. unfold try_except, bind at 1.
  set (wp := set_stdout (List.app (stdout w) ["Starting Safe GPIO Bridge..."]) w).
  destruct (start_bridge setraw fuel wp) as [[rs w2]|] eqn:S; [|discriminate].
  destruct (start_bridge_finish _ _ _ _ S)
    as (fs & ds & tr & lg & lines & rl & w1 & _ & _ & Hk).
  intros Hrun. exists rs, w2. split; [reflexivity|].
  destruct rl as [[]|e].
  - subst rs. left. unfold logger in Hrun. injection Hrun as <- <-.
    repeat split; reflexivity.
  - destruct e as [k|msg|msg|msg| |code];
      [ | | | | subst rs; left; unfold logger in Hrun; injection Hrun as <- <-;
                repeat split; reflexivity
        | destruct Hk as [_ He]; discriminate He ];
      destruct Hk as [-> He]; right; eexists; (split; [exact He|]);
      cbn [is_Exception] in Hrun;
      unfold bind, logger, sys_exit, raise in Hrun; injection Hrun as <- <-;
      repeat split; reflexivity.
Qed.

(** X14: shutdown is guaranteed.  In every run in which signals and
    failures of the terminal reach the program only while it waits for a key
    (a break, a [KeyboardInterrupt] or any other exception out of the loop):
    whenever [start_bridge] comes to an end, by returning or by letting the
    exception out, the last thing it did was a whole [stop_bridge]:
    [is_running] is off and one write of "1" was attempted on each of the
    eight value files, each going through unless the file system refused it.
    Its result is never [False]. *)
Theorem start_bridge_always_ends_with_stop_bridge fuel w r w' :
  start_bridge setraw fuel w = Some (r, w') ->
  exists w1,
    stop_bridge w1 = Some (Ok tt, w') /\
    is_running w' = false /\
    emitted w1 w' =
      List.app (attempts (faults w1)
                  (map (fun item => pin_value_path (snd item)) gpio_pins) "1")
               [Sleep 100] /\
    r <> Ok false.
Proof.
  intros H.
  destruct (start_bridge_finish _ _ _ _ H)
    as (fs & ds & tr & lg & lines & rl & w1 & _ & Hstop & Hk).
  match type of Hstop with stop_bridge ?W = _ => exists W end.
  split; [exact Hstop|].
  match type of Hstop with
  | stop_bridge ?W = _ => destruct (stop_bridge_attempts W) as (fs' & lg' & E)
  end.
  rewrite E in Hstop. injection Hstop as <-.
  split; [reflexivity|]. split.
  - erewrite emitted_app by reflexivity. reflexivity.
  - destruct rl as [[]|[k|msg|msg|msg| |code]];
      first [subst r; discriminate | destruct Hk as [-> _]; discriminate].
Qed.

(** X15: the terminal is never left in raw mode.  Whenever [main] comes to
    an end, normally or by [sys.exit], the terminal attributes are the ones
    it started with. *)
Theorem main_leaves_the_terminal_as_it_found_it fuel w r w' :
  main setraw fuel w = Some (r, w') -> tty w' = tty w.
Proof.
  intros H. destruct (main_finish _ _ _ _ H) as (rs & w2 & S & Hr).
  destruct (start_bridge_finish _ _ _ _ S)
    as (fs & ds & tr & lg & lines & rl & w1 & L & Hstop & _).
  destruct (bridge_loop_frame _ _ _ _ L) as ((evs & n & lg1 & th & ->) & _).
  match type of Hstop with
  | stop_bridge ?W = _ => destruct (stop_bridge_run W) as (fs' & evs' & lg' & E & _)
  end.
  rewrite E in Hstop. injection Hstop as <-.
  destruct Hr as [(_ & _ & ->)|(e & _ & _ & _ & ->)];
    destruct rl as [[]|[k|msg'|msg'|msg'| |code]]; reflexivity.
Qed.

(** X16: in every run in which signals and failures of the terminal
    reach the program only while it waits for a key, [main] ends in one of
    two ways.  Either it returns, after logging that the bridge completed
    (exit status 0): the loop was left by a break or by a
    [KeyboardInterrupt].  Or an exception of class [Exception] came out of
    the key wait (an [OSError], a [termios.error], a [UnicodeDecodeError]);
    [main] logged it as an unexpected error, with its text, and called
    [sys.exit(1)] (exit status 1).  The "Failed to start bridge" exit is
    never taken. *)
Theorem main_exits_with_zero_or_one fuel w r w' :
  main setraw fuel w = Some (r, w') ->
  (r = Ok tt /\ exit_status r = 0 /\
   exists l, log w' = List.app l [(INFO, "Bridge completed successfully")]) \/
  (r = Raise (SystemExit 1) /\ exit_status r = 1 /\
   exists l e,
     is_Exception e = true /\
     log w' = List.app l [(ERROR, "Unexpected error: " ++ exn_str e)]).
Proof.
  intros H. destruct (main_finish _ _ _ _ H) as (rs & w2 & _ & Hr).
  destruct Hr as [(_ & -> & ->)|(e & He & _ & -> & ->)].
  - left. repeat split. eexists. reflexivity.
  - right. repeat split. exists (log w2), e. split; [exact He|reflexivity].
Qed.

(** X17: an interrupt while the loop waits for a key (in the poll or in
    the read, after any number of quiet windows) is not an error: it is
    logged, [stop_bridge] runs from there, and [main] returns normally, with
    exit status 0. *)
Theorem interrupt_shuts_down_and_exits_zero fuel w n rest :
  stdin w = List.app (repeat Quiet n) (Intr :: rest) ->
  exists w1 w2 w',
    main setraw (S fuel) w = Some (Ok tt, w') /\
    stdin w1 = rest /\
    (exists l, log w1 = List.app l [(INFO, "Interrupted by user (Ctrl+C)")]) /\
    stop_bridge w1 = Some (Ok tt, w2) /\
    w' = set_log (List.app (log w2) [(INFO, "Bridge completed successfully")]) w2.
Proof.
  intros Hin. unfold main, bind at 1, print at 1. cbv beta iota.
  unfold try_except, bind at 1.
  match goal with
  | |- context [start_bridge setraw (S fuel) ?W] =>
      destruct (start_bridge_unfold W) as (fs & ds & tr & lg & lines & H)
  end.
  rewrite H. clear H. unfold bind at 1, try_finally, try_except_interrupt.
  erewrite (loop_raises fuel _ n Intr KeyboardInterrupt rest);
    [|reflexivity|exact Hin|left; split; reflexivity].
  unfold logger at 1.
  match goal with
  | |- context [stop_bridge ?W1] =>
      destruct (stop_bridge_run W1) as (fs' & evs & lg' & E & _);
      exists W1; rewrite E
  end.
  do 2 eexists. split; [reflexivity|]. split; [reflexivity|].
  split; [eexists; reflexivity|]. split; reflexivity.
Qed.

(** X18: when the terminal fails while the loop waits for a key, the
    [OSError] is not caught by the loop, but [stop_bridge] still runs before
    it leaves [start_bridge]; [main] then logs it as an unexpected error and
    exits with status 1. *)
Theorem terminal_error_shuts_down_and_exits_one fuel w n msg rest :
  stdin w = List.app (repeat Quiet n) (IOErr msg :: rest) ->
  exists w1 w2 w',
    main setraw (S fuel) w = Some (Raise (SystemExit 1), w') /\
    exit_status (Raise (SystemExit 1)) = 1 /\
    stdin w1 = rest /\
    stop_bridge w1 = Some (Ok tt, w2) /\
    w' = set_log (List.app (log w2) [(ERROR, "Unexpected error: " ++ msg)]) w2.
Proof.
  intros Hin. unfold main, bind at 1, print at 1. cbv beta iota.
  unfold try_except, bind at 1.
  match goal with
  | |- context [start_bridge setraw (S fuel) ?W] =>
      destruct (start_bridge_unfold W) as (fs & ds & tr & lg & lines & H)
  end.
  rewrite H. clear H. unfold bind at 1, try_finally, try_except_interrupt.
  erewrite (loop_raises fuel _ n (IOErr msg) (OSError msg) rest);
    [|reflexivity|exact Hin|right; exists msg; split; reflexivity].
  match goal with
  | |- context [stop_bridge ?W1] =>
      destruct (stop_bridge_run W1) as (fs' & evs & lg' & E & _);
      exists W1; rewrite E
  end.
  do 2 eexists. split; [reflexivity|]. split; [reflexivity|].
  split; [reflexivity|]. split; reflexivity.
Qed.

(** X9: once the terminal is gone, the program does not go on reading
    empty input: [get_char] fails in [tcgetattr], before it has switched the
    terminal to raw mode; the [termios.error] leaves the loop, [stop_bridge]
    runs from there, and [main] logs it as an unexpected error and exits
    with status 1. *)
Theorem end_of_input_ends_the_run fuel w :
  stdin w = [] ->
  exists w1 w2 w' msg,
    get_char setraw w1 = Some (Raise (TermiosError msg), w1) /\
    main setraw (S fuel) w = Some (Raise (SystemExit 1), w') /\
    stdin w1 = [] /\ tty w1 = tty w /\
    stop_bridge w1 = Some (Ok tt, w2) /\
    w' = set_log (List.app (log w2) [(ERROR, "Unexpected error: " ++ msg)]) w2.
Proof.
  intros Hin. unfold main, bind at 1, print at 1. cbv beta iota.
  unfold try_except, bind at 1.
  match goal with
  | |- context [start_bridge setraw (S fuel) ?W] =>
      destruct (start_bridge_unfold W) as (fs & ds & tr & lg & lines & H)
  end.
  rewrite H. clear H. unfold bind at 1, try_finally, try_except_interrupt.
  erewrite (loop_at_end_of_input fuel); [|reflexivity|exact Hin].
  match goal with
  | |- context [stop_bridge ?W1] =>
      destruct (stop_bridge_run W1) as (fs' & evs & lg' & E & _);
      exists W1; rewrite E
  end.
  do 3 eexists. split; [apply get_char_at_end_of_input; exact Hin|].
  split; [reflexivity|]. split; [exact Hin|]. split; [reflexivity|].
  split; reflexivity.
Qed.

End BridgeFacts.

(** ** The theorems at concrete runs *)

(** C9 as stated fails: the token [Q] is not a key of [key_mapping], yet the
    dispatcher ends the loop on it instead of going on to the next
    iteration. *)
Lemma uppercase_Q_is_unmapped_but_quits :
  ~ (forall (tok : string) (w : world tty_mode),
        action_of tok = None ->
        exists w', dispatch tok w = Some (Ok Continue, w') /\
                   trace w' = trace w /\ threads w' = threads w).
Proof.
  intros H. destruct (H "Q" (fresh [] []) eq_refl) as (w' & E & _).
  vm_compute in E. discriminate E.
Qed.


(** A pulse on UP (board pin 31, chip pin 6) with every write going through. *)
Lemma pulse_on_up_witness :
  simulate_button_press "up" 31 (fresh [] []) = Some (Ok tt, after_up_pulse) /\
  levels_written (value_path 6) (emitted (fresh [] []) after_up_pulse)
  = ["1"; "0"; "1"] /\
  last_level (value_path 6) (trace after_up_pulse) None = Some "1".
Proof.
  assert (Hrun : simulate_button_press "up" 31 (fresh [] [])
                 = Some (Ok tt, after_up_pulse)) by (vm_compute; reflexivity).
  split; [exact Hrun|].
  apply (pulse_writes_high_low_high tty_mode "up" 31 6 (fresh [] []) (Ok tt)
           after_up_pulse); [reflexivity|exact Hrun|vm_compute; reflexivity].
Defined.

(** A pulse on UP whose LOW write is refused. *)
Lemma failed_press_on_up_witness :
  simulate_button_press "up" 31 refused_press = Some (Ok tt, after_refused_press) /\
  exists ok1,
    emitted refused_press after_refused_press =
      [FileWrite (value_path 6) "1" ok1; Sleep 10;
       FileWrite (value_path 6) "0" false].
Proof.
  assert (Hrun : simulate_button_press "up" 31 refused_press
                 = Some (Ok tt, after_refused_press)) by (vm_compute; reflexivity).
  split; [exact Hrun|].
  apply (failed_press_aborts_pulse tty_mode "up" 31 6 refused_press (Ok tt)
           after_refused_press); [reflexivity|exact Hrun|].
  vm_compute. right. right. left. reflexivity.
Defined.

(** The key [z] is read and ignored. *)
Lemma key_z_is_ignored_witness :
  action_of "z" = None /\ lower "z" <> "q" /\
  dispatch "z" (fresh [] []) = Some (Ok Continue, fresh [] []).
Proof.
  split; [reflexivity|]. split; [discriminate|].
  apply (unmapped_token_is_ignored tty_mode to_raw "z" (fresh [] []));
    [reflexivity|discriminate].
Defined.


(** ** The further theorems at concrete runs *)

(** Board pin 99 is in no table. *)
Lemma gpio_write_unknown_pin_witness :
  exists w',
    gpio_write 99 1 (fresh [] []) = Some (Ok false, w') /\
    trace w' = trace (fresh [] []).
Proof.
  destruct (gpio_write_unknown_pin_is_caught tty_mode 99 1 (fresh [] []) eq_refl)
    as (w' & H & Ht & _).
  exists w'. split; [exact H|exact Ht].
Defined.

(** A refused write on UP. *)
Lemma gpio_write_refused_witness :
  exists ok,
    emitted (fresh [] [Some "EACCES"])
            (world_after (gpio_write 31 0 (fresh [] [Some "EACCES"])))
    = [FileWrite (value_path 6) (str 0) ok].
Proof.
  destruct (gpio_write_returns_write_outcome tty_mode 31 6 0
              (fresh [] [Some "EACCES"]) (Ok false)
              (world_after (gpio_write 31 0 (fresh [] [Some "EACCES"])))
              eq_refl ltac:(vm_compute; reflexivity))
    as (ok & _ & He & _).
  exists ok. exact He.
Defined.

(** Setting up UP when the export goes through and the direction write is
    refused. *)
Lemma setup_pin_refused_direction_witness :
  exists ok_export ok_direction ok_value,
    emitted (fresh [] [None; Some "EIO"])
            (world_after (setup_pin ("up", 31) (fresh [] [None; Some "EIO"])))
    = List.app
        (if existsb (String.eqb (gpio_base ++ "/gpio" ++ str 6))
                    (dirs (fresh [] [None; Some "EIO"]))
         then []
         else [FileWrite (gpio_base ++ "/export") (str 6) ok_export])
        (FileWrite (gpio_base ++ "/gpio" ++ str 6 ++ "/direction") "out" ok_direction
         :: (if ok_direction then [FileWrite (value_path 6) "1" ok_value] else [])).
Proof.
  exact (proj2 (setup_pin_writes tty_mode "up" 31 6 (fresh [] [None; Some "EIO"])
                  (Ok tt)
                  (world_after (setup_pin ("up", 31) (fresh [] [None; Some "EIO"])))
                  eq_refl ltac:(vm_compute; reflexivity))).
Defined.

(** A pulse on UP whose first write is refused and whose other writes go
    through. *)
Lemma release_after_refused_first_write_witness :
  exists ok1 ok3,
    emitted (fresh [] [Some "EBUSY"])
            (world_after (simulate_button_press "up" 31 (fresh [] [Some "EBUSY"])))
    = [FileWrite (value_path 6) "1" ok1; Sleep 10;
       FileWrite (value_path 6) "0" true; Sleep button_press_duration;
       FileWrite (value_path 6) "1" ok3].
Proof.
  destruct (press_is_always_followed_by_release tty_mode "up" 31 6
              (fresh [] [Some "EBUSY"]) (Ok tt)
              (world_after (simulate_button_press "up" 31 (fresh [] [Some "EBUSY"])))
              eq_refl ltac:(vm_compute; reflexivity)
              ltac:(vm_compute; right; right; left; reflexivity))
    as (ok1 & ok3 & He & _).
  exists ok1, ok3. exact He.
Defined.

(** The key [w] after one quiet window. *)
Lemma plain_byte_witness :
  stdin (world_after (get_char to_raw (fresh [Quiet; Key "w"] []))) = [] /\
  elapsed (world_after (get_char to_raw (fresh [Quiet; Key "w"] []))) = 1%nat.
Proof.
  destruct (plain_byte_is_a_one_character_token tty_mode to_raw
              (fresh [Quiet; Key "w"] []) 1 "w"%char [] (Ok (Some "w"))
              (world_after (get_char to_raw (fresh [Quiet; Key "w"] [])))
              eq_refl ltac:(repeat constructor; vm_compute; lia)
              ltac:(discriminate) ltac:(vm_compute; reflexivity))
    as (_ & Hs & He & _).
  split; [exact Hs|exact He].
Defined.

(** The up arrow, its last byte arriving one window late. *)
Lemma escape_sequence_witness :
  stdin (world_after
           (get_char to_raw (fresh [Key esc; Key "["; Quiet; Key "A"] []))) = [].
Proof.
  exact (proj1 (proj2
    (escape_sequence_is_one_token tty_mode to_raw
       (fresh [Key esc; Key "["; Quiet; Key "A"] []) 0 1 "["%char "A"%char []
       (Ok (Some (arrow "A")))
       (world_after (get_char to_raw (fresh [Key esc; Key "["; Quiet; Key "A"] [])))
       eq_refl ltac:(repeat constructor; vm_compute; lia)
       ltac:(vm_compute; reflexivity)))).
Defined.

(** A run that starts when the terminal is already gone. *)
Lemma end_of_input_witness :
  exists w', main to_raw 1 (fresh [] []) = Some (Raise (SystemExit 1), w').
Proof.
  destruct (end_of_input_ends_the_run tty_mode to_raw 0 (fresh [] []) eq_refl)
    as (w1 & w2 & w' & msg & _ & H & _).
  exists w'. exact H.
Defined.

(** Reading the key [a]. *)
Lemma decoder_frame_witness :
  tty (world_after (get_char to_raw (fresh [Key "a"] []))) = Cooked.
Proof.
  destruct (decoder_touches_only_the_terminal tty_mode to_raw (fresh [Key "a"] [])
              (Ok (Some "a")) (world_after (get_char to_raw (fresh [Key "a"] [])))
              ltac:(vm_compute; reflexivity))
    as (_ & _ & _ & _ & _ & _ & _ & Ht & _).
  exact Ht.
Defined.

(** The key [1] stands for KEY1 on board pin 40. *)
Lemma mapped_key_witness :
  exists pin bcm,
    pin_of "key1" = Some pin /\ bcm_of pin = Some bcm /\
    dispatch "1" (fresh [] [])
    = Some (Ok Continue,
            set_threads (List.app (threads (fresh [] [])) [("key1", pin)])
                        (fresh [] [])).
Proof.
  exact (mapped_key_starts_one_pulse_thread tty_mode "1" "key1" (fresh [] []) eq_refl
           ltac:(discriminate)).
Defined.

(** The loop over the keys [1] and [q]. *)
Lemma loop_writes_nothing_witness :
  trace (world_after (bridge_loop to_raw 2 (running [Key "1"; Key "q"]))) = [].
Proof.
  exact (proj1
    (loop_itself_never_writes_a_pin tty_mode to_raw 2 (running [Key "1"; Key "q"])
       (Ok tt) (world_after (bridge_loop to_raw 2 (running [Key "1"; Key "q"])))
       ltac:(vm_compute; reflexivity))).
Defined.

(** Typing [w], [z], [1] and then [q]. *)
Lemma typed_keys_witness :
  exists w',
    bridge_loop to_raw 4 (running [Key "w"; Key "z"; Key "1"; Key "q"])
    = Some (Ok tt, w') /\
    threads w' = [("up", 31); ("key1", 40)].
Proof.
  destruct (typed_keys_start_their_pulses_in_order tty_mode to_raw
              ["w"; "z"; "1"]%char (running [Key "w"; Key "z"; Key "1"; Key "q"])
              0 "q"%char []
              ltac:(repeat constructor; discriminate)
              ltac:(repeat constructor; vm_compute; lia)
              (or_introl eq_refl) eq_refl eq_refl)
    as (w' & Hl & Ht & _).
  exists w'. split; [exact Hl|exact Ht].
Defined.

(** A whole [start_bridge] on the key [q]. *)
Lemma start_bridge_stops_witness :
  is_running (world_after (start_bridge to_raw 1 (fresh [Key "q"] []))) = false.
Proof.
  destruct (start_bridge_always_ends_with_stop_bridge tty_mode to_raw 1
              (fresh [Key "q"] []) (Ok true)
              (world_after (start_bridge to_raw 1 (fresh [Key "q"] [])))
              ltac:(vm_compute; reflexivity))
    as (w1 & _ & Hr & _).
  exact Hr.
Defined.

(** A whole run on the key [q]: the terminal afterwards. *)
Lemma main_terminal_witness :
  tty (world_after (main to_raw 1 (fresh [Key "q"] []))) = Cooked.
Proof.
  exact (main_leaves_the_terminal_as_it_found_it tty_mode to_raw 1
           (fresh [Key "q"] []) (Ok tt)
           (world_after (main to_raw 1 (fresh [Key "q"] [])))
           ltac:(vm_compute; reflexivity)).
Defined.

(** A whole run that ends on a terminal error: the second way out. *)
Lemma main_exit_status_witness :
  (exists l,
      log (world_after (main to_raw 1 (fresh [IOErr "EIO"] [])))
      = List.app l [(INFO, "Bridge completed successfully")]) \/
  (exists l e,
      is_Exception e = true /\
      log (world_after (main to_raw 1 (fresh [IOErr "EIO"] [])))
      = List.app l [(ERROR, "Unexpected error: " ++ exn_str e)]).
Proof.
  destruct (main_exits_with_zero_or_one tty_mode to_raw 1
              (fresh [IOErr "EIO"] []) (Raise (SystemExit 1))
              (world_after (main to_raw 1 (fresh [IOErr "EIO"] [])))
              ltac:(vm_compute; reflexivity))
    as [(_ & _ & H)|(_ & _ & H)]; [left|right]; exact H.
Defined.

(** Ctrl+C as the first thing that happens. *)
Lemma interrupt_run_witness :
  exists w', main to_raw 1 (fresh [Intr] []) = Some (Ok tt, w').
Proof.
  destruct (interrupt_shuts_down_and_exits_zero tty_mode to_raw 0 (fresh [Intr] [])
              0 [] eq_refl)
    as (w1 & w2 & w' & H & _).
  exists w'. exact H.
Defined.

(** A terminal error as the first thing that happens. *)
Lemma terminal_error_run_witness :
  exists w', main to_raw 1 (fresh [IOErr "EIO"] []) = Some (Raise (SystemExit 1), w').
Proof.
  destruct (terminal_error_shuts_down_and_exits_one tty_mode to_raw 0
              (fresh [IOErr "EIO"] []) 0 "EIO" [] eq_refl)
    as (w1 & w2 & w' & H & _).
  exists w'. exact H.
Defined.
